(** * OTP verification flow of the FastAPI backend ([main.py])

    A shallow embedding of the two request handlers [start_otp] and
    [verify_otp] together with the document collection [db["auth"]] they
    read and write, followed by the properties of the flow.

    Conventions of the embedding.
    - A Python [str] is a [string]; a character stands for the code point
      of the same number, so the strings covered are those of code points
      below 256.
    - A [datetime] is an integer number of microseconds since the epoch;
      [timedelta(minutes=5)] is 300 000 000.
    - Every call of [datetime.now] and the draw of [random.randint] are
      inputs of the handler that performs them, in the order of the calls.
    - A handler returns its outcome together with the value of [db] after
      the call. *)

From Stdlib Require Import Ascii String.
From stdpp Require Import base numbers gmap strings list fin_maps pretty.

Open Scope string_scope.
Open Scope Z_scope.

(** ** Documents *)

(** The values met in the documents and in the handlers' dictionaries. *)
Inductive value : Type :=
  | VNull
  | VBool (b : bool)
  | VInt (n : Z)
  | VStr (s : string)
  | VTime (t : Z)
  | VId (oid : N).

Global Instance value_eq_dec : EqDecision value.
Proof. solve_decision. Defined.

(** Python's truth value of what [dict.get] returns: a missing key gives
    [None]; [None], [False], [0] and the empty string are false; a
    datetime and an object id are true. *)
Definition truthy (o : option value) : bool :=
  match o with
  | None | Some VNull => false
  | Some (VBool b) => b
  | Some (VInt n) => negb (n =? 0)%Z
  | Some (VStr s) => negb (bool_decide (s = ""))
  | Some (VTime _) | Some (VId _) => true
  end.

(** A stored document: the identifier the store gives it and its fields. *)
Record doc : Type := Doc { _id : N; fields : gmap string value }.

Global Instance doc_eq_dec : EqDecision doc.
Proof. solve_decision. Defined.

(** [record.get(k)] on a document read from the store. *)
Definition doc_get (d : doc) (k : string) : option value :=
  if bool_decide (k = "_id") then Some (VId (_id d)) else fields d !! k.

(** ** The collection [db["auth"]] *)

(** A collection is the sequence of its documents, in insertion order. *)
Abbreviation collection := (list doc).

(** An equality filter [{k: v}]. *)
Definition doc_matches (q : string * value) (d : doc) : bool :=
  bool_decide (doc_get d q.1 = Some q.2).

(** Modelled from the spec: the module [database] that provides the handle
    [db] is not among the sources. The store behind it is the document
    store the specification describes: [find_one] returns the first
    document that satisfies the filter, [update_one] below changes the
    first such document and with [upsert] inserts one when there is none,
    and a timestamp is read back as it was written. *)
Fixpoint find_one (q : string * value) (c : collection) : option doc :=
  match c with
  | [] => None
  | d :: c' => if doc_matches q d then Some d else find_one q c'
  end.

(** The update document [{"$set": .., "$unset": .., "$setOnInsert": ..}]. *)
Record update : Type := Update {
  u_set : gmap string value;
  u_unset : list string;
  u_setOnInsert : gmap string value
}.

Definition unset_fields (ks : list string) (m : gmap string value)
  : gmap string value :=
  foldr delete m ks.

(** The operators applied to a document that is already stored:
    [$setOnInsert] is ignored. *)
Definition apply_update (u : update) (d : doc) : doc :=
  Doc (_id d) (unset_fields (u_unset u) (u_set u ∪ fields d)).

Fixpoint update_first (q : string * value) (u : update) (c : collection)
  : option collection :=
  match c with
  | [] => None
  | d :: c' =>
      if doc_matches q d then Some (apply_update u d :: c')
      else (d ::.) <$> update_first q u c'
  end.

(** A fresh identifier: above every identifier in the collection. *)
Definition fresh_oid (c : collection) : N :=
  foldr (λ d acc, N.max (N.succ (_id d)) acc) 0%N c.

(** The document an upsert inserts: the filter's field, then [$set] and
    [$setOnInsert]. *)
Definition inserted_doc (q : string * value) (u : update) (c : collection)
  : doc :=
  Doc (fresh_oid c)
      (unset_fields (u_unset u)
         (u_set u ∪ u_setOnInsert u ∪ delete "_id" {[ q.1 := q.2 ]})).

Definition update_one (q : string * value) (u : update) (upsert : bool)
    (c : collection) : collection :=
  match update_first q u c with
  | Some c' => c'
  | None => if upsert then (c ++ [inserted_doc q u c])%list else c
  end.

(** ** Strings: [str.strip] *)

(** [str.isspace] on one character of code point below 256. *)
Definition py_isspace (a : ascii) : bool :=
  let n := N_of_ascii a in
  ((9 <=? n) && (n <=? 13) || (28 <=? n) && (n <=? 32)
   || (n =? 133) || (n =? 160))%N.

Fixpoint lstrip (s : string) : string :=
  match s with
  | "" => ""
  | String a s' => if py_isspace a then lstrip s' else s
  end.

Fixpoint rstrip (s : string) : string :=
  match s with
  | "" => ""
  | String a s' =>
      let r := rstrip s' in
      if py_isspace a && bool_decide (r = "") then "" else String a r
  end.

Definition strip (s : string) : string := rstrip (lstrip s).

(** ** Requests *)

Module StartOtpRequest.
Record t : Type := mk { name : string; phone : string }.

(** [Field(..., min_length=2, max_length=80)] and
    [Field(..., min_length=8, max_length=16)]. *)
Definition valid (r : t) : bool :=
  bool_decide (2 ≤ String.length (name r) ≤ 80)%nat
  && bool_decide (8 ≤ String.length (phone r) ≤ 16)%nat.
End StartOtpRequest.

Module VerifyOtpRequest.
Record t : Type := mk { phone : string; otp : string }.

Definition valid (r : t) : bool :=
  bool_decide (8 ≤ String.length (phone r) ≤ 16)%nat
  && bool_decide (4 ≤ String.length (otp r) ≤ 6)%nat.
End VerifyOtpRequest.

(** ** Outcomes *)

Inductive exception : Type :=
  | HTTPException (status_code : Z) (detail : string)
  | TypeError.

(** A handler returns a JSON object or raises. *)
Inductive outcome : Type :=
  | Return (body : gmap string value)
  | Raise (e : exception).

(** ** Random codes *)

(** [random.randint(a, b)]: the generator's draw [entropy] is reduced to
    the [b - a + 1] values from [a] to [b]. *)
Definition randint (a b : Z) (entropy : N) : Z :=
  a + Z.of_N entropy `mod` (b - a + 1).

(** [timedelta(minutes=5)] in microseconds. *)
Definition five_minutes : Z := 5 * 60 * 1000000.

(** ** The handlers *)

(** [POST /api/auth/start]. [entropy] is the draw of [random.randint];
    [now_expires], [now_updated] and [now_created] are the three readings
    of the clock, in program order. *)
Definition payload (req : StartOtpRequest.t) (otp : string)
    (expires now_updated : Z) : gmap string value :=
  {[ "name" := VStr (strip (StartOtpRequest.name req));
     "phone" := VStr (strip (StartOtpRequest.phone req));
     "otp_code" := VStr otp;
     "otp_expires" := VTime expires;
     "verified" := VBool false;
     "updated_at" := VTime now_updated ]}.

Definition start_otp (db : option collection) (entropy : N)
    (now_expires now_updated now_created : Z) (req : StartOtpRequest.t)
  : outcome * option collection :=
  match db with
  | None => (Raise (HTTPException 500 "Database not available"), db)
  | Some auth =>
      let otp := pretty (randint 100000 999999 entropy) in
      let expires := now_expires + five_minutes in
      let payload := payload req otp expires now_updated in
      let auth' :=
        update_one ("phone", VStr (strip (StartOtpRequest.phone req)))
          (Update payload [] {[ "created_at" := VTime now_created ]})
          true auth in
      (Return {[ "ok" := VBool true; "demo_otp" := VStr otp;
                 "expires_in_sec" := VInt 300 ]},
       Some auth')
  end.

(** [POST /api/auth/verify]. [now] is the reading of the clock. *)
Definition verify_otp (db : option collection) (now : Z)
    (req : VerifyOtpRequest.t) : outcome * option collection :=
  match db with
  | None => (Raise (HTTPException 500 "Database not available"), db)
  | Some auth =>
      match find_one ("phone", VStr (VerifyOtpRequest.phone req)) auth with
      | None => (Raise (HTTPException 404 "Start verification first"), db)
      | Some record =>
          if negb (truthy (doc_get record "otp_code"))
             || negb (truthy (doc_get record "otp_expires"))
          then (Raise (HTTPException 400 "No OTP generated"), db)
          else
            match doc_get record "otp_expires" with
            | Some (VTime otp_expires) =>
                if now >? otp_expires
                then (Raise (HTTPException 400 "OTP expired"), db)
                else if negb (bool_decide
                       (Some (VStr (VerifyOtpRequest.otp req))
                        = doc_get record "otp_code"))
                then (Raise (HTTPException 400 "Invalid OTP"), db)
                else
                  let auth' :=
                    update_one ("_id", VId (_id record))
                      (Update {[ "verified" := VBool true ]}
                              ["otp_code"; "otp_expires"] ∅)
                      false auth in
                  (Return {[ "ok" := VBool true; "verified" := VBool true ]},
                   Some auth')
            | _ => (Raise TypeError, db)
            end
      end
  end.

(** ** Histories of requests *)

Inductive request : Type :=
  | StartVerification (entropy : N) (now_expires now_updated now_created : Z)
      (req : StartOtpRequest.t)
  | VerifyCode (now : Z) (req : VerifyOtpRequest.t).

Definition handle (db : option collection) (r : request)
  : outcome * option collection :=
  match r with
  | StartVerification e t1 t2 t3 req => start_otp db e t1 t2 t3 req
  | VerifyCode now req => verify_otp db now req
  end.

(** The store after a sequence of requests, served one after the other. *)
Definition run (db : option collection) (rs : list request)
  : option collection :=
  foldl (λ db r, (handle db r).2) db rs.

(** A property of every document of the store. *)
Definition store_Forall (P : doc → Prop) (db : option collection) : Prop :=
  match db with
  | None => True
  | Some auth => Forall P auth
  end.

(** The field [k] of the AuthRecord of [phone], when both exist. *)
Definition stored_field (db : option collection) (phone k : string)
  : option value :=
  auth ← db; record ← find_one ("phone", VStr phone) auth; doc_get record k.

(** The three invariants of the data model, on one document. *)
Definition otp_pair_inv (d : doc) : Prop :=
  is_Some (fields d !! "otp_code") ↔ is_Some (fields d !! "otp_expires").

Definition verified_inv (d : doc) : Prop :=
  fields d !! "verified" = Some (VBool true) →
  fields d !! "otp_code" = None ∧ fields d !! "otp_expires" = None.

(** The integer a string of decimal digits denotes. *)
Definition digit_value (a : ascii) : option Z :=
  let n := N_of_ascii a in
  if ((48 <=? n) && (n <=? 57))%N then Some (Z.of_N (n - 48)) else None.

Fixpoint decimal_value_from (acc : Z) (s : string) : option Z :=
  match s with
  | "" => Some acc
  | String a s' => d ← digit_value a; decimal_value_from (10 * acc + d) s'
  end.

Definition decimal_value (s : string) : option Z :=
  match s with
  | "" => None
  | _ => decimal_value_from 0 s
  end.

(** ** Auxiliary definitions of the statements *)

(** The decimal digits of a six-digit number, most significant first. *)
Definition six_digits (n : N) : string :=
  let d k := pretty_N_char ((n `div` k) `mod` 10)%N in
  String (d 100000%N) (String (d 10000%N) (String (d 1000%N)
    (String (d 100%N) (String (d 10%N) (String (d 1%N) ""))))).

(** The update document that [start_otp] passes to [update_one]. *)
Definition start_update (entropy : N) (t1 t2 t3 : Z)
    (req : StartOtpRequest.t) : update :=
  Update (payload req (pretty (randint 100000 999999 entropy))
            (t1 + five_minutes) t2)
         [] {[ "created_at" := VTime t3 ]}.

(** The update document that [verify_otp] passes to [update_one]. *)
Definition verify_update : update :=
  Update {[ "verified" := VBool true ]} ["otp_code"; "otp_expires"] ∅.

(** The identifiers of the stored documents are pairwise distinct. *)
Definition store_ids_NoDup (db : option collection) : Prop :=
  match db with
  | None => True
  | Some auth => NoDup (_id <$> auth)
  end.

(** The request is a start that files its record under [phone]. *)
Definition starts_phone (phone : string) (r : request) : Prop :=
  match r with
  | StartVerification _ _ _ _ req =>
      strip (StartOtpRequest.phone req) = phone
  | VerifyCode _ _ => False
  end.

(** A store with one verified record and one pending record. *)
Definition alice_verified : doc :=
  Doc 0 {[ "name" := VStr "Alice"; "phone" := VStr "5551234567";
           "verified" := VBool true; "created_at" := VTime 2;
           "updated_at" := VTime 1 ]}.

Definition bob_pending : doc :=
  Doc 1 {[ "name" := VStr "Bob"; "phone" := VStr "5557654321";
           "otp_code" := VStr "424242"; "otp_expires" := VTime 300000050;
           "verified" := VBool false; "created_at" := VTime 52;
           "updated_at" := VTime 51 ]}.

Definition sample_auth : collection := [alice_verified; bob_pending].
Definition sample_store : option collection := Some sample_auth.

(** ** The shape of the stored records *)

(** A code as [start_otp] writes it: six decimal digits denoting an
    integer from 100000 to 999999. *)
Definition is_code (s : string) : bool :=
  match decimal_value s with
  | Some n =>
      (100000 <=? n) && (n <=? 999999) && bool_decide (String.length s = 6%nat)
  | None => false
  end.

(** The two states of a record of the collection, with the field types of
    the schema [Auth] of [schemas.py]: [name] and [phone] are strings (here
    without surrounding whitespace), [verified] is a boolean, [otp_code] is
    a string or absent, [otp_expires] a datetime or absent; the two
    timestamps are datetimes. A record is pending ([verified] false, a code
    and its expiry) or verified ([verified] true, neither). *)
Definition auth_record (d : doc) : bool :=
  match fields d !! "name", fields d !! "phone", fields d !! "verified",
        fields d !! "created_at", fields d !! "updated_at" with
  | Some (VStr name), Some (VStr phone), Some (VBool verified),
    Some (VTime _), Some (VTime _) =>
      bool_decide (strip name = name) && bool_decide (strip phone = phone)
      && match fields d !! "otp_code", fields d !! "otp_expires" with
         | Some (VStr otp), Some (VTime _) => negb verified && is_code otp
         | None, None => verified
         | _, _ => false
         end
  | _, _, _, _, _ => false
  end.

(** The keys of the collection: the [phone] of each document. *)
Definition phone_keys (c : collection) : list (option value) :=
  (λ d, fields d !! "phone") <$> c.

(** The answers [verify_otp] gives on the stores the flow produces. *)
Definition verify_answers : list outcome :=
  [ Return {[ "ok" := VBool true; "verified" := VBool true ]};
    Raise (HTTPException 404 "Start verification first");
    Raise (HTTPException 400 "No OTP generated");
    Raise (HTTPException 400 "OTP expired");
    Raise (HTTPException 400 "Invalid OTP") ].

(** The string does not begin with a whitespace character. *)
Definition no_leading_space (s : string) : Prop :=
  match s with
  | "" => True
  | String a _ => py_isspace a = false
  end.

(** The phones of the stored documents are pairwise distinct. *)
Definition store_keys_NoDup (db : option collection) : Prop :=
  match db with
  | None => True
  | Some auth => NoDup (phone_keys auth)
  end.

(** ** The diagnostic endpoint [GET /test] *)

(** What [test_database] sees of the handle [db]: [db.name] when [db] has
    that attribute, and what [db.list_collection_names()] does: the text
    [str(e)] of the exception it raises, or the names it returns. *)
Record Database : Type := {
  db_name : option string;
  list_collection_names : string + list string
}.

(** What [from database import db] does inside the handler: it raises
    [ImportError], raises another exception of text [str(e)], or binds
    [db], which may be [None]. *)
Inductive import_db : Type :=
  | ImportError
  | ImportException (message : string)
  | Imported (db : option Database).

(** The dictionary [response]; [None] is the [None] of the two fields
    that start with it. The status texts are written with the bytes of
    their UTF-8 encoding. *)
Record test_response : Type := TestResponse {
  backend : string;
  database : string;
  database_url : option string;
  database_name : option string;
  connection_status : string;
  collections : list string
}.

Definition set_database (v : string) (r : test_response) : test_response :=
  TestResponse (backend r) v (database_url r) (database_name r)
    (connection_status r) (collections r).

Definition set_database_url (v : option string) (r : test_response)
  : test_response :=
  TestResponse (backend r) (database r) v (database_name r)
    (connection_status r) (collections r).

Definition set_database_name (v : option string) (r : test_response)
  : test_response :=
  TestResponse (backend r) (database r) (database_url r) v
    (connection_status r) (collections r).

Definition set_connection_status (v : string) (r : test_response)
  : test_response :=
  TestResponse (backend r) (database r) (database_url r) (database_name r)
    v (collections r).

Definition set_collections (v : list string) (r : test_response)
  : test_response :=
  TestResponse (backend r) (database r) (database_url r) (database_name r)
    (connection_status r) v.

(** [GET /test]. [imported] is the outcome of the import and [getenv] the
    environment, [None] for a variable that is not set. *)
Definition test_database (imported : import_db)
    (getenv : string → option string) : test_response :=
  let response :=
    TestResponse "✅ Running" "❌ Not Available" None None "Not Connected" []
  in
  let response :=
    match imported with
    | Imported (Some db) =>
        let response := set_database "✅ Available" response in
        let response := set_database_url (Some "✅ Configured") response in
        let response :=
          set_database_name
            (Some (match db_name db with
                   | Some name => name
                   | None => "✅ Connected"
                   end)) response in
        let response := set_connection_status "Connected" response in
        match list_collection_names db with
        | inr names =>
            let response := set_collections (take 10 names) response in
            set_database "✅ Connected & Working" response
        | inl e =>
            set_database
              ("⚠️  Connected but Error: " ++ substring 0 50 e) response
        end
    | Imported None =>
        set_database "⚠️  Available but not initialized" response
    | ImportError =>
        set_database
          "❌ Database module not found (run enable-database first)" response
    | ImportException e =>
        set_database ("❌ Error: " ++ substring 0 50 e) response
    end in
  let response :=
    set_database_url
      (Some (if truthy (VStr <$> getenv "DATABASE_URL")
             then "✅ Set" else "❌ Not Set")) response in
  let response :=
    set_database_name
      (Some (if truthy (VStr <$> getenv "DATABASE_NAME")
             then "✅ Set" else "❌ Not Set")) response in
  response.

(** * Properties *)

(** ** The collection operations *)

Section store.
Implicit Types (q : string * value) (u : update) (c : collection) (d : doc).

Lemma find_one_app q c1 c2 :
  find_one q (c1 ++ c2)%list
  = match find_one q c1 with Some d => Some d | None => find_one q c2 end.
Proof.
  induction c1 as [|d c1 IH]; simpl; [done|].
  by destruct (doc_matches q d).
Qed.

Lemma find_one_Some q c d :
  find_one q c = Some d → d ∈ c ∧ doc_matches q d = true.
Proof.
  induction c as [|x c IH]; simpl; [done|].
  destruct (doc_matches q x) eqn:Hx.
  - intros [= <-]. split; [left | done].
  - intros [Hin Hm]%IH. split; [by right | done].
Qed.

Lemma find_one_None q c :
  find_one q c = None ↔ Forall (λ d, doc_matches q d = false) c.
Proof.
  induction c as [|x c IH]; simpl.
  - split; [constructor | done].
  - destruct (doc_matches q x) eqn:Hx.
    + split; [done | by intros [? _]%Forall_cons; congruence].
    + rewrite IH. split; [by constructor | by intros [_ ?]%Forall_cons].
Qed.

(** The first match splits the collection; [update_first] rewrites it in
    place. *)
Lemma find_one_split q c d :
  find_one q c = Some d →
  ∃ c1 c2, c = (c1 ++ d :: c2)%list ∧ find_one q c1 = None.
Proof.
  induction c as [|x c IH]; simpl; [done|].
  destruct (doc_matches q x) eqn:Hx.
  - intros [= <-]. by exists [], c.
  - intros (c1 & c2 & -> & Hc1)%IH. exists (x :: c1), c2.
    split; [done|]. simpl. by rewrite Hx.
Qed.

Lemma update_first_None q u c :
  find_one q c = None → update_first q u c = None.
Proof.
  induction c as [|x c IH]; simpl; [done|].
  destruct (doc_matches q x); [done|]. intros ->%IH. done.
Qed.

Lemma update_first_split q u c1 d c2 :
  find_one q c1 = None → doc_matches q d = true →
  update_first q u (c1 ++ d :: c2)%list
  = Some (c1 ++ apply_update u d :: c2)%list.
Proof.
  intros Hc1 Hd. induction c1 as [|x c1 IH]; simpl in *.
  - by rewrite Hd.
  - destruct (doc_matches q x); [done|]. by rewrite IH.
Qed.

Lemma update_one_found q u b c1 d c2 :
  find_one q c1 = None → doc_matches q d = true →
  update_one q u b (c1 ++ d :: c2)%list
  = (c1 ++ apply_update u d :: c2)%list.
Proof.
  intros. unfold update_one. by rewrite update_first_split.
Qed.

Lemma update_one_absent q u c :
  find_one q c = None →
  update_one q u true c = (c ++ [inserted_doc q u c])%list.
Proof. intros. unfold update_one. by rewrite update_first_None. Qed.

Lemma update_one_absent_noupsert q u c :
  find_one q c = None → update_one q u false c = c.
Proof. intros. unfold update_one. by rewrite update_first_None. Qed.

(** Every document after [update_one] is an old one, an old one
    updated, or the inserted one. *)
Lemma update_one_Forall (P : doc → Prop) q u b c :
  Forall P c →
  (∀ d, d ∈ c → P (apply_update u d)) →
  (b = true → P (inserted_doc q u c)) →
  Forall P (update_one q u b c).
Proof.
  intros Hc Hupd Hins. destruct (find_one q c) as [d|] eqn:Hf.
  - destruct (find_one_split _ _ _ Hf) as (c1 & c2 & -> & Hc1).
    apply find_one_Some in Hf as [Hin Hm].
    rewrite update_one_found by done.
    apply Forall_app in Hc as [H1 [_ H2]%Forall_cons].
    apply Forall_app. split; [done|]. constructor; [|done].
    apply Hupd, Hin.
  - destruct b.
    + rewrite update_one_absent by done.
      apply Forall_app. split; [done|]. constructor; [by apply Hins | done].
    + by rewrite update_one_absent_noupsert.
Qed.
End store.

(** ** Codes *)

Section codes.
Lemma randint_range (a b : Z) entropy :
  (a ≤ b → a ≤ randint a b entropy ≤ b)%Z.
Proof.
  intros Hab. unfold randint.
  pose proof (Z.mod_pos_bound (Z.of_N entropy) (b - a + 1)). lia.
Qed.

Lemma randint_onto (a b n : Z) :
  (a ≤ n ≤ b)%Z → randint a b (Z.to_N (n - a)) = n.
Proof.
  intros Hn. unfold randint.
  rewrite Z2N.id by lia. rewrite Z.mod_small by lia. lia.
Qed.

Lemma pretty_N_six_digits (n : N) :
  (100000 ≤ n ≤ 999999)%N → pretty n = six_digits n.
Proof.
  intros Hn. unfold pretty, pretty_N.
  rewrite decide_False by lia.
  assert (Hdiv : ∀ a b, ((n `div` a) `div` b = n `div` (a * b))%N)
    by (intros; apply N.Div0.div_div).
  do 6 (rewrite pretty_N_go_step;
        [|first [lia | rewrite ?Hdiv; apply N.div_str_pos; simpl; lia]]).
  rewrite !Hdiv.
  change (10 * 10)%N with 100%N. change (100 * 10)%N with 1000%N.
  change (1000 * 10)%N with 10000%N. change (10000 * 10)%N with 100000%N.
  change (100000 * 10)%N with 1000000%N.
  rewrite (N.div_small n 1000000) by lia.
  rewrite pretty_N_go_0. unfold six_digits.
  by rewrite N.div_1_r.
Qed.

Lemma pretty_Z_six_digits (n : Z) :
  100000 ≤ n ≤ 999999 → pretty n = six_digits (Z.to_N n).
Proof.
  intros Hn. rewrite <-pretty_N_six_digits by lia.
  destruct n as [|p|p]; [lia|done|lia].
Qed.

Lemma digit_value_pretty_N_char (x : N) :
  (x < 10)%N → digit_value (pretty_N_char x) = Some (Z.of_N x).
Proof.
  intros Hx.
  assert (x = 0 ∨ x = 1 ∨ x = 2 ∨ x = 3 ∨ x = 4 ∨ x = 5
          ∨ x = 6 ∨ x = 7 ∨ x = 8 ∨ x = 9)%N as Hcases by lia.
  repeat (destruct Hcases as [->|Hcases]; [done|]). by subst.
Qed.

Lemma decimal_value_six_digits (n : N) :
  (n < 1000000)%N → decimal_value (six_digits n) = Some (Z.of_N n).
Proof.
  intros Hn. unfold six_digits, decimal_value, decimal_value_from.
  rewrite !digit_value_pretty_N_char by (apply N.mod_lt; lia).
  simpl. f_equal.
  rewrite !N2Z.inj_mod, !N2Z.inj_div. simpl Z.of_N.
  set (z := Z.of_N n). assert (0 ≤ z < 1000000) by lia.
  clearbody z. rewrite Z.div_1_r.
  pose proof (Z.div_mod z 10). pose proof (Z.mod_pos_bound z 10).
  pose proof (Z.div_mod (z `div` 10) 10).
  pose proof (Z.div_mod (z `div` 100) 10).
  pose proof (Z.div_mod (z `div` 1000) 10).
  pose proof (Z.div_mod (z `div` 10000) 10).
  pose proof (Z.div_mod (z `div` 100000) 10).
  rewrite !Z.div_div in * by lia.
  change (10 * 10) with 100 in *. change (100 * 10) with 1000 in *.
  change (1000 * 10) with 10000 in *. change (10000 * 10) with 100000 in *.
  change (100000 * 10) with 1000000 in *.
  pose proof (Z.div_small z 1000000). lia.
Qed.
End codes.

(** ** The handlers, step by step *)

Section handlers.
Implicit Types (auth : collection) (d : doc) (k : string).

Lemma doc_get_field d k : k ≠ "_id" → doc_get d k = fields d !! k.
Proof. intros. unfold doc_get. by rewrite bool_decide_eq_false_2. Qed.

Lemma doc_matches_phone d p :
  doc_matches ("phone", VStr p) d = true
  ↔ fields d !! "phone" = Some (VStr p).
Proof.
  unfold doc_matches. rewrite bool_decide_eq_true.
  by rewrite doc_get_field.
Qed.

Lemma doc_matches_id d oid :
  doc_matches ("_id", VId oid) d = true ↔ _id d = oid.
Proof.
  unfold doc_matches, doc_get. simpl. rewrite bool_decide_eq_true.
  split; [by intros [= ->] | by intros ->].
Qed.

(** What the six keys of [payload] hold, and that it has no other key. *)
Lemma payload_lookup req otp expires now_updated k :
  payload req otp expires now_updated !! k =
    if bool_decide (k = "name")
    then Some (VStr (strip (StartOtpRequest.name req)))
    else if bool_decide (k = "phone")
    then Some (VStr (strip (StartOtpRequest.phone req)))
    else if bool_decide (k = "otp_code") then Some (VStr otp)
    else if bool_decide (k = "otp_expires") then Some (VTime expires)
    else if bool_decide (k = "verified") then Some (VBool false)
    else if bool_decide (k = "updated_at") then Some (VTime now_updated)
    else None.
Proof.
  unfold payload. repeat case_bool_decide; by simplify_map_eq.
Qed.

Lemma start_otp_Some auth entropy t1 t2 t3 req :
  start_otp (Some auth) entropy t1 t2 t3 req =
    (Return {[ "ok" := VBool true;
               "demo_otp" := VStr (pretty (randint 100000 999999 entropy));
               "expires_in_sec" := VInt 300 ]},
     Some (update_one ("phone", VStr (strip (StartOtpRequest.phone req)))
             (start_update entropy t1 t2 t3 req) true auth)).
Proof. reflexivity. Qed.

Lemma start_update_applied entropy t1 t2 t3 req d k :
  fields (apply_update (start_update entropy t1 t2 t3 req) d) !! k =
    match payload req (pretty (randint 100000 999999 entropy))
            (t1 + five_minutes) t2 !! k with
    | Some v => Some v
    | None => fields d !! k
    end.
Proof.
  simpl. destruct (payload _ _ _ _ !! k) as [v|] eqn:Hk.
  - by apply lookup_union_Some_l.
  - by rewrite lookup_union_r.
Qed.

Lemma start_update_inserted entropy t1 t2 t3 req auth k :
  fields (inserted_doc ("phone", VStr (strip (StartOtpRequest.phone req)))
            (start_update entropy t1 t2 t3 req) auth) !! k =
    match payload req (pretty (randint 100000 999999 entropy))
            (t1 + five_minutes) t2 !! k with
    | Some v => Some v
    | None => if bool_decide (k = "created_at") then Some (VTime t3)
              else None
    end.
Proof.
  simpl. destruct (payload _ _ _ _ !! k) as [v|] eqn:Hk.
  - rewrite <-(assoc_L (∪)). by apply lookup_union_Some_l.
  - rewrite <-(assoc_L (∪)), lookup_union_r by done.
    rewrite payload_lookup in Hk.
    repeat case_bool_decide; try done.
    + subst k. by apply lookup_union_Some_l, lookup_singleton_eq.
    + rewrite lookup_union_r by (by apply lookup_singleton_ne).
      destruct (decide (k = "_id")) as [->|].
      * apply lookup_delete_eq.
      * rewrite lookup_delete_ne by done. by apply lookup_singleton_ne.
Qed.

(** After [start_otp] the first document of the phone holds the payload;
    it is the old first document updated in place, or a new last one. *)
Lemma start_otp_record auth entropy t1 t2 t3 req :
  let q := ("phone", VStr (strip (StartOtpRequest.phone req))) in
  let u := start_update entropy t1 t2 t3 req in
  let auth' := update_one q u true auth in
  match find_one q auth with
  | Some d =>
      ∃ c1 c2, auth = (c1 ++ d :: c2)%list ∧ find_one q c1 = None
               ∧ auth' = (c1 ++ apply_update u d :: c2)%list
               ∧ find_one q auth' = Some (apply_update u d)
  | None =>
      auth' = (auth ++ [inserted_doc q u auth])%list
      ∧ find_one q auth' = Some (inserted_doc q u auth)
  end.
Proof.
  intros q u auth'. destruct (find_one q auth) as [d|] eqn:Hf.
  - destruct (find_one_split _ _ _ Hf) as (c1 & c2 & -> & Hc1).
    apply find_one_Some in Hf as [_ Hm]. exists c1, c2.
    assert (auth' = (c1 ++ apply_update u d :: c2)%list) as Hauth'
      by (by apply update_one_found).
    split_and!; [done..|].
    rewrite Hauth', find_one_app, Hc1. simpl.
    assert (doc_matches q (apply_update u d) = true) as ->; [|done].
    apply doc_matches_phone. unfold u.
    rewrite start_update_applied, payload_lookup. done.
  - assert (auth' = (auth ++ [inserted_doc q u auth])%list) as Hauth'
      by (by apply update_one_absent).
    split; [done|]. rewrite Hauth', find_one_app, Hf. simpl.
    assert (doc_matches q (inserted_doc q u auth) = true) as ->; [|done].
    apply doc_matches_phone. unfold q, u.
    rewrite start_update_inserted, payload_lookup. done.
Qed.

(** The fields of the payload can be read back under the stripped
    phone. *)
Lemma start_otp_stored auth entropy t1 t2 t3 req k v :
  payload req (pretty (randint 100000 999999 entropy))
    (t1 + five_minutes) t2 !! k = Some v →
  stored_field (start_otp (Some auth) entropy t1 t2 t3 req).2
    (strip (StartOtpRequest.phone req)) k = Some v.
Proof.
  intros Hk. rewrite start_otp_Some. simpl.
  assert (k ≠ "_id") as Hid.
  { intros ->. rewrite payload_lookup in Hk. done. }
  pose proof (start_otp_record auth entropy t1 t2 t3 req) as Hrec.
  simpl in Hrec.
  destruct (find_one _ auth) as [d|].
  - destruct Hrec as (c1 & c2 & _ & _ & _ & ->). simpl.
    rewrite doc_get_field by done.
    by rewrite start_update_applied, Hk.
  - destruct Hrec as [_ ->]. simpl.
    rewrite doc_get_field by done.
    by rewrite start_update_inserted, Hk.
Qed.

(** [verify_otp] on a record with an outstanding challenge. *)
Lemma verify_otp_challenge auth now req record otp_expires :
  find_one ("phone", VStr (VerifyOtpRequest.phone req)) auth
    = Some record →
  truthy (fields record !! "otp_code") = true →
  fields record !! "otp_expires" = Some (VTime otp_expires) →
  verify_otp (Some auth) now req =
    if now >? otp_expires
    then (Raise (HTTPException 400 "OTP expired"), Some auth)
    else if bool_decide (fields record !! "otp_code"
                         = Some (VStr (VerifyOtpRequest.otp req)))
    then (Return {[ "ok" := VBool true; "verified" := VBool true ]},
          Some (update_one ("_id", VId (_id record))
                  (Update {[ "verified" := VBool true ]}
                          ["otp_code"; "otp_expires"] ∅)
                  false auth))
    else (Raise (HTTPException 400 "Invalid OTP"), Some auth).
Proof.
  intros Hf Hcode Hexp. unfold verify_otp. rewrite Hf.
  rewrite !doc_get_field by done. rewrite Hcode, Hexp. simpl.
  destruct (now >? otp_expires); [done|].
  repeat case_bool_decide; done || congruence.
Qed.

Lemma verify_otp_404 auth now req :
  find_one ("phone", VStr (VerifyOtpRequest.phone req)) auth = None →
  verify_otp (Some auth) now req
  = (Raise (HTTPException 404 "Start verification first"), Some auth).
Proof. intros Hf. unfold verify_otp. by rewrite Hf. Qed.

(** The only write of [verify_otp] is the one of its successful path. *)
Lemma verify_otp_cases db now req :
  (∃ e, verify_otp db now req = (Raise e, db))
  ∨ (∃ auth record,
       db = Some auth
       ∧ find_one ("phone", VStr (VerifyOtpRequest.phone req)) auth
         = Some record
       ∧ verify_otp db now req =
           (Return {[ "ok" := VBool true; "verified" := VBool true ]},
            Some (update_one ("_id", VId (_id record))
                    (Update {[ "verified" := VBool true ]}
                            ["otp_code"; "otp_expires"] ∅)
                    false auth))).
Proof.
  unfold verify_otp. destruct db as [auth|]; [|left; eauto].
  destruct (find_one _ auth) as [record|] eqn:Hf; [|left; eauto].
  repeat (case_match; try (left; eexists; reflexivity)).
  right. eauto.
Qed.
End handlers.

(** ** Invariants of the stored documents *)

Section invariants.
Variable P : doc → Prop.

Lemma start_otp_Forall db entropy t1 t2 t3 req :
  (∀ d, P (apply_update (start_update entropy t1 t2 t3 req) d)) →
  (∀ auth,
     P (inserted_doc ("phone", VStr (strip (StartOtpRequest.phone req)))
          (start_update entropy t1 t2 t3 req) auth)) →
  store_Forall P db →
  store_Forall P (start_otp db entropy t1 t2 t3 req).2.
Proof.
  intros Hupd Hins Hdb. destruct db as [auth|]; [|done].
  rewrite start_otp_Some. simpl. apply update_one_Forall; auto.
Qed.

Lemma verify_otp_Forall db now req :
  (∀ d, P (apply_update verify_update d)) →
  store_Forall P db →
  store_Forall P (verify_otp db now req).2.
Proof.
  intros Hupd Hdb.
  destruct (verify_otp_cases db now req)
    as [[e ->]|(auth & record & -> & _ & ->)]; [done|].
  simpl. apply update_one_Forall; auto. done.
Qed.

Lemma run_Forall :
  (∀ db r, store_Forall P db → store_Forall P (handle db r).2) →
  ∀ rs db, store_Forall P db → store_Forall P (run db rs).
Proof.
  intros Hstep rs. induction rs as [|r rs IH]; intros db Hdb; [done|].
  simpl. apply IH, Hstep, Hdb.
Qed.
End invariants.

Lemma verify_update_applied d k :
  fields (apply_update verify_update d) !! k =
    if bool_decide (k = "otp_code") then None
    else if bool_decide (k = "otp_expires") then None
    else if bool_decide (k = "verified") then Some (VBool true)
    else fields d !! k.
Proof.
  simpl. repeat case_bool_decide; subst.
  - apply lookup_delete_eq.
  - rewrite lookup_delete_ne by done. apply lookup_delete_eq.
  - rewrite !lookup_delete_ne by done.
    by apply lookup_union_Some_l, lookup_singleton_eq.
  - rewrite !lookup_delete_ne by done.
    rewrite lookup_union_r; [done|]. by apply lookup_singleton_ne.
Qed.

(** C3: a document with [verified = true] has neither [otp_code] nor
    [otp_expires]; [start_otp] and [verify_otp] both keep this true of every
    stored document, and it is true of every document of every store
    reached from the empty one by a sequence of the two requests. *)
Theorem verified_inv_preserved :
  (∀ db entropy t1 t2 t3 req,
     store_Forall verified_inv db →
     store_Forall verified_inv (start_otp db entropy t1 t2 t3 req).2)
  ∧ (∀ db now req,
       store_Forall verified_inv db →
       store_Forall verified_inv (verify_otp db now req).2)
  ∧ (∀ rs, store_Forall verified_inv (run (Some []) rs)).
Proof.
  assert (Hstart : ∀ db entropy t1 t2 t3 req,
     store_Forall verified_inv db →
     store_Forall verified_inv (start_otp db entropy t1 t2 t3 req).2).
  { intros. apply start_otp_Forall; [| |done].
    - intros d Hv. rewrite start_update_applied, payload_lookup in Hv.
      simpl in Hv. congruence.
    - intros auth Hv. rewrite start_update_inserted, payload_lookup in Hv.
      simpl in Hv. congruence. }
  assert (Hverify : ∀ db now req,
     store_Forall verified_inv db →
     store_Forall verified_inv (verify_otp db now req).2).
  { intros. apply verify_otp_Forall; [|done].
    intros d _. by rewrite !verify_update_applied. }
  split_and!; [done..|].
  intros rs. apply run_Forall; [|by constructor].
  intros db [e t1 t2 t3 req|now req]; simpl; auto.
Qed.

Lemma verified_inv_preserved_witness :
  store_Forall verified_inv sample_store
  ∧ store_Forall verified_inv
      (start_otp sample_store 7 20 21 22
         (StartOtpRequest.mk "Alice" "5551234567")).2.
Proof.
  assert (store_Forall verified_inv sample_store) as Hinv
    by (repeat constructor; by vm_compute).
  split; [exact Hinv|].
  apply (proj1 verified_inv_preserved), Hinv.
Defined.

(** ** What [start_otp] writes *)

(** C1 (as the code has it): for a phone that already has a record,
    [start_otp] rewrites that record in place: it sets [name], [otp_code],
    [otp_expires], [updated_at] and also [verified], to false; every other
    field ([created_at] and [phone] among them), the identifier and every
    other document stay as they were. *)
Theorem start_otp_existing_record auth entropy t1 t2 t3 req d :
  find_one ("phone", VStr (strip (StartOtpRequest.phone req))) auth
    = Some d →
  ∃ c1 c2 d',
    auth = (c1 ++ d :: c2)%list
    ∧ (start_otp (Some auth) entropy t1 t2 t3 req).2
      = Some (c1 ++ d' :: c2)%list
    ∧ find_one ("phone", VStr (strip (StartOtpRequest.phone req)))
        (c1 ++ d' :: c2)%list = Some d'
    ∧ _id d' = _id d
    ∧ fields d' !! "name" = Some (VStr (strip (StartOtpRequest.name req)))
    ∧ fields d' !! "otp_code"
      = Some (VStr (pretty (randint 100000 999999 entropy)))
    ∧ fields d' !! "otp_expires" = Some (VTime (t1 + five_minutes))
    ∧ fields d' !! "updated_at" = Some (VTime t2)
    ∧ fields d' !! "verified" = Some (VBool false)
    ∧ ∀ k, k ∉ ["name"; "otp_code"; "otp_expires"; "updated_at"; "verified"]
           → fields d' !! k = fields d !! k.
Proof.
  intros Hf. rewrite start_otp_Some. simpl.
  pose proof (start_otp_record auth entropy t1 t2 t3 req) as Hrec.
  simpl in Hrec. rewrite Hf in Hrec.
  destruct Hrec as (c1 & c2 & -> & Hc1 & -> & Hf').
  apply find_one_Some in Hf as [_ Hphone%doc_matches_phone].
  exists c1, c2, (apply_update (start_update entropy t1 t2 t3 req) d).
  split_and!; try done;
    try (by rewrite start_update_applied, payload_lookup).
  intros k Hk. rewrite start_update_applied, payload_lookup.
  repeat case_bool_decide; subst; try done;
    exfalso; apply Hk; set_solver.
Qed.

Lemma start_otp_existing_record_witness :
  find_one ("phone", VStr (strip "5551234567")) sample_auth
    = Some alice_verified
  ∧ ∃ d',
      (find_one ("phone", VStr (strip "5551234567")) <$>
         (start_otp (Some sample_auth) 7 20 21 22
            (StartOtpRequest.mk "Alice" "5551234567")).2) = Some (Some d')
      ∧ fields d' !! "verified" = Some (VBool false)
      ∧ fields d' !! "created_at" = fields alice_verified !! "created_at".
Proof.
  split; [by vm_compute|].
  destruct (start_otp_existing_record sample_auth 7 20 21 22
              (StartOtpRequest.mk "Alice" "5551234567") alice_verified)
    as (c1 & c2 & d' & _ & Hdb & Hf & _ & _ & _ & _ & _ & Hv & Hframe);
    [by vm_compute|].
  exists d'. rewrite Hdb. simpl. split_and!.
  - f_equal. exact Hf.
  - exact Hv.
  - apply Hframe. apply (bool_decide_unpack _). by vm_compute.
Defined.

(** C1, refuted as stated: from the empty store, a start and the
    verification with its code leave the record of the phone with
    [verified = true]; after a new [start_otp] for that phone the record has
    [verified = false]. *)
Lemma start_otp_resets_verified :
  let alice := StartOtpRequest.mk "Alice" "5551234567" in
  let started := start_otp (Some []) 5 0 1 2 alice in
  let verified :=
    verify_otp started.2 10 (VerifyOtpRequest.mk "5551234567" "100005") in
  let restarted := start_otp verified.2 7 20 21 22 alice in
  verified.1 = Return {[ "ok" := VBool true; "verified" := VBool true ]}
  ∧ stored_field verified.2 "5551234567" "verified" = Some (VBool true)
  ∧ stored_field restarted.2 "5551234567" "verified" = Some (VBool false).
Proof. split_and!; by vm_compute. Qed.

(** C8: the code is the decimal writing of an integer from 100000 to
    999999: six characters, all digits, the first not a zero; the string
    returned as [demo_otp], with [expires_in_sec] 300, is the one stored as
    [otp_code]; and every integer of the range is the code of some draw. *)
Theorem start_otp_code auth t1 t2 t3 req :
  (∀ entropy, ∃ otp n,
      (start_otp (Some auth) entropy t1 t2 t3 req).1
        = Return {[ "ok" := VBool true; "demo_otp" := VStr otp;
                    "expires_in_sec" := VInt 300 ]}
      ∧ stored_field (start_otp (Some auth) entropy t1 t2 t3 req).2
          (strip (StartOtpRequest.phone req)) "otp_code" = Some (VStr otp)
      ∧ String.length otp = 6%nat
      ∧ decimal_value otp = Some n
      ∧ 100000 ≤ n ≤ 999999
      ∧ ∀ s, otp ≠ String "0" s)
  ∧ (∀ n, 100000 ≤ n ≤ 999999 →
      ∃ entropy otp,
        (start_otp (Some auth) entropy t1 t2 t3 req).1
          = Return {[ "ok" := VBool true; "demo_otp" := VStr otp;
                      "expires_in_sec" := VInt 300 ]}
        ∧ decimal_value otp = Some n).
Proof.
  split.
  - intros entropy.
    pose proof (randint_range 100000 999999 entropy) as Hr.
    set (n := randint 100000 999999 entropy) in *.
    exists (pretty n), n. split_and!; [done| | | |lia|lia|].
    + apply start_otp_stored. by rewrite payload_lookup.
    + by rewrite pretty_Z_six_digits by lia.
    + rewrite pretty_Z_six_digits by lia.
      rewrite decimal_value_six_digits by lia. f_equal. lia.
    + rewrite pretty_Z_six_digits by lia. intros s [= Hc _].
      rewrite N.mod_small in Hc
        by (apply N.Div0.div_lt_upper_bound; lia).
      change "0"%char with (pretty_N_char 0) in Hc.
      apply pretty_N_char_inj in Hc;
        [|apply N.Div0.div_lt_upper_bound; lia|done].
      assert (0 < Z.to_N n `div` 100000)%N; [|lia].
      apply N.div_str_pos. lia.
  - intros n Hn. exists (Z.to_N (n - 100000)), (pretty n).
    split.
    + simpl. by rewrite randint_onto.
    + rewrite pretty_Z_six_digits by lia.
      rewrite decimal_value_six_digits by lia. f_equal. lia.
Qed.

Lemma start_otp_code_witness :
  100000 ≤ 123456 ≤ 999999
  ∧ ∃ entropy otp,
      (start_otp (Some []) entropy 0 1 2
         (StartOtpRequest.mk "Alice" "5551234567")).1
        = Return {[ "ok" := VBool true; "demo_otp" := VStr otp;
                    "expires_in_sec" := VInt 300 ]}
      ∧ decimal_value otp = Some 123456.
Proof.
  split; [lia|].
  apply (proj2 (start_otp_code [] 0 1 2
                  (StartOtpRequest.mk "Alice" "5551234567"))).
  lia.
Defined.

(** ** What [verify_otp] answers *)

(** C10: when [verify_otp] raises, whatever the exception, the store after
    the call is the store before it. *)
Theorem verify_otp_error_no_write db now req e :
  (verify_otp db now req).1 = Raise e → (verify_otp db now req).2 = db.
Proof.
  destruct (verify_otp_cases db now req)
    as [[e' ->]|(auth & record & -> & _ & ->)]; [done|].
  simpl. discriminate.
Qed.

Lemma verify_otp_error_no_write_witness :
  (verify_otp sample_store 60 (VerifyOtpRequest.mk "5557654321" "000000")).1
    = Raise (HTTPException 400 "Invalid OTP")
  ∧ (verify_otp sample_store 60
       (VerifyOtpRequest.mk "5557654321" "000000")).2 = sample_store.
Proof.
  split; [by vm_compute|].
  apply (verify_otp_error_no_write _ _ _ (HTTPException 400 "Invalid OTP")).
  by vm_compute.
Defined.

(** C7: when the collection has no record for the phone of the request,
    [verify_otp] raises 404 and leaves the store as it was. *)
Theorem verify_otp_no_record auth now req :
  find_one ("phone", VStr (VerifyOtpRequest.phone req)) auth = None →
  verify_otp (Some auth) now req
  = (Raise (HTTPException 404 "Start verification first"), Some auth).
Proof. apply verify_otp_404. Qed.

Lemma verify_otp_no_record_witness :
  find_one ("phone", VStr "5550000000") sample_auth = None
  ∧ verify_otp (Some sample_auth) 60
      (VerifyOtpRequest.mk "5550000000" "424242")
    = (Raise (HTTPException 404 "Start verification first"),
       Some sample_auth).
Proof.
  split; [by vm_compute|].
  apply (verify_otp_no_record sample_auth 60
           (VerifyOtpRequest.mk "5550000000" "424242")).
  by vm_compute.
Defined.

(** C6: on a record with an outstanding challenge, [verify_otp] raises
    400 "OTP expired" exactly when the clock is strictly after
    [otp_expires]; at [otp_expires] itself the answer is that of the
    comparison of the codes. *)
Theorem verify_otp_expired_iff auth now req record otp_expires :
  find_one ("phone", VStr (VerifyOtpRequest.phone req)) auth = Some record →
  truthy (fields record !! "otp_code") = true →
  fields record !! "otp_expires" = Some (VTime otp_expires) →
  ((verify_otp (Some auth) now req).1
     = Raise (HTTPException 400 "OTP expired") ↔ otp_expires < now)
  ∧ (now = otp_expires →
     (verify_otp (Some auth) now req).1 =
       if bool_decide (fields record !! "otp_code"
                       = Some (VStr (VerifyOtpRequest.otp req)))
       then Return {[ "ok" := VBool true; "verified" := VBool true ]}
       else Raise (HTTPException 400 "Invalid OTP")).
Proof.
  intros Hf Hcode Hexp.
  rewrite (verify_otp_challenge _ _ _ _ _ Hf Hcode Hexp).
  destruct (Z.gtb_spec now otp_expires) as [Hgt|Hle].
  - split; [by split; [lia|]|lia].
  - split; [|by case_bool_decide].
    split; [|lia]. by case_bool_decide.
Qed.

Lemma verify_otp_expired_iff_witness :
  find_one ("phone", VStr "5557654321") sample_auth = Some bob_pending
  ∧ truthy (fields bob_pending !! "otp_code") = true
  ∧ fields bob_pending !! "otp_expires" = Some (VTime 300000050)
  ∧ (verify_otp (Some sample_auth) 300000051
       (VerifyOtpRequest.mk "5557654321" "424242")).1
    = Raise (HTTPException 400 "OTP expired").
Proof.
  split_and!; [by vm_compute..|].
  apply (verify_otp_expired_iff sample_auth 300000051
           (VerifyOtpRequest.mk "5557654321" "424242") bob_pending
           300000050); [by vm_compute..|lia].
Defined.

(** ** A start followed by a verification *)

Section start_then_verify.
Implicit Types (auth : collection) (d : doc).

Lemma code_truthy entropy :
  truthy (Some (VStr (pretty (randint 100000 999999 entropy)))) = true.
Proof.
  pose proof (randint_range 100000 999999 entropy ltac:(lia)).
  unfold truthy. rewrite pretty_Z_six_digits by lia. done.
Qed.

(** After [start_otp], a verification under the stripped phone and no
    later than the expiry is decided by the code alone. *)
Lemma verify_after_start auth entropy t1 t2 t3 req now otp :
  now ≤ t1 + five_minutes →
  ∃ auth' record,
    (start_otp (Some auth) entropy t1 t2 t3 req).2 = Some auth'
    ∧ find_one ("phone", VStr (strip (StartOtpRequest.phone req))) auth'
      = Some record
    ∧ verify_otp (Some auth') now
        (VerifyOtpRequest.mk (strip (StartOtpRequest.phone req)) otp)
      = if bool_decide (otp = pretty (randint 100000 999999 entropy))
        then (Return {[ "ok" := VBool true; "verified" := VBool true ]},
              Some (update_one ("_id", VId (_id record)) verify_update
                      false auth'))
        else (Raise (HTTPException 400 "Invalid OTP"), Some auth').
Proof.
  intros Hnow. rewrite start_otp_Some. cbn [snd].
  set (q := ("phone", VStr (strip (StartOtpRequest.phone req)))).
  set (u := start_update entropy t1 t2 t3 req).
  assert (∃ record, find_one q (update_one q u true auth) = Some record
            ∧ fields record !! "otp_code"
              = Some (VStr (pretty (randint 100000 999999 entropy)))
            ∧ fields record !! "otp_expires"
              = Some (VTime (t1 + five_minutes)))
    as (record & Hf & Hcode & Hexp).
  { pose proof (start_otp_record auth entropy t1 t2 t3 req) as Hrec.
    simpl in Hrec. fold q u in Hrec.
    destruct (find_one q auth) as [d|].
    - destruct Hrec as (c1 & c2 & _ & _ & _ & Hf).
      eexists. split; [exact Hf|]. unfold u.
      by rewrite !start_update_applied, !payload_lookup.
    - destruct Hrec as [_ Hf].
      eexists. split; [exact Hf|]. unfold q, u.
      by rewrite !start_update_inserted, !payload_lookup. }
  exists (update_one q u true auth), record. split_and!; [done..|].
  rewrite (verify_otp_challenge _ _ _ record (t1 + five_minutes));
    [|done|by rewrite Hcode, code_truthy|done].
  rewrite Hcode. simpl.
  destruct (Z.gtb_spec now (t1 + five_minutes));
    [unfold five_minutes in *; lia|].
  repeat case_bool_decide; done || congruence.
Qed.

(** [start_otp] never creates nor removes a record of a phone other than
    the stripped phone of its request. *)
Lemma start_otp_keeps_absent auth entropy t1 t2 t3 req phone :
  strip (StartOtpRequest.phone req) ≠ phone →
  find_one ("phone", VStr phone) auth = None →
  ∃ auth', (start_otp (Some auth) entropy t1 t2 t3 req).2 = Some auth'
           ∧ find_one ("phone", VStr phone) auth' = None.
Proof.
  intros Hne Hf. rewrite start_otp_Some. simpl. eexists. split; [done|].
  apply find_one_None. apply find_one_None in Hf.
  apply update_one_Forall; [done|..].
  - intros d _. apply not_true_is_false. rewrite doc_matches_phone.
    rewrite start_update_applied, payload_lookup. simpl. congruence.
  - intros _. apply not_true_is_false. rewrite doc_matches_phone.
    rewrite start_update_inserted, payload_lookup. simpl. congruence.
Qed.

Lemma verify_otp_keeps_absent auth now req phone :
  find_one ("phone", VStr phone) auth = None →
  ∃ auth', (verify_otp (Some auth) now req).2 = Some auth'
           ∧ find_one ("phone", VStr phone) auth' = None.
Proof.
  intros Hf.
  destruct (verify_otp_cases (Some auth) now req)
    as [[e ->]|(auth0 & record & [= <-] & _ & ->)]; [by eexists|].
  simpl. eexists. split; [done|].
  apply find_one_None. apply find_one_None in Hf.
  apply update_one_Forall; [done| |done].
  intros d Hd. rewrite Forall_forall in Hf. specialize (Hf d Hd).
  apply not_true_is_false. apply not_true_iff_false in Hf.
  rewrite doc_matches_phone in *.
  by rewrite verify_update_applied.
Qed.

(** A start whose phone has surrounding whitespace cannot be followed by
    a verification under the same string. *)
Lemma verify_raw_phone_not_found auth entropy t1 t2 t3 req now otp :
  strip (StartOtpRequest.phone req) ≠ StartOtpRequest.phone req →
  find_one ("phone", VStr (StartOtpRequest.phone req)) auth = None →
  verify_otp (start_otp (Some auth) entropy t1 t2 t3 req).2 now
    (VerifyOtpRequest.mk (StartOtpRequest.phone req) otp)
  = (Raise (HTTPException 404 "Start verification first"),
     (start_otp (Some auth) entropy t1 t2 t3 req).2).
Proof.
  intros Hne Hf.
  destruct (start_otp_keeps_absent auth entropy t1 t2 t3 req _ Hne Hf)
    as (auth' & -> & Hf').
  by apply verify_otp_404.
Qed.
End start_then_verify.

(** C5 (as the code has it): after two consecutive starts for the same
    phone, returning [code1] then [code2], a verification under the stored
    phone made no later than the second expiry succeeds with [code2] and
    with nothing else, every other code being answered 400 "Invalid OTP":
    so is [code1] whenever it differs from [code2]. *)
Theorem second_start_invalidates_first
    auth entropy1 s1 s2 s3 req1 entropy2 t1 t2 t3 req2 now :
  strip (StartOtpRequest.phone req1) = strip (StartOtpRequest.phone req2) →
  now ≤ t1 + five_minutes →
  let code1 := pretty (randint 100000 999999 entropy1) in
  let code2 := pretty (randint 100000 999999 entropy2) in
  let started1 := start_otp (Some auth) entropy1 s1 s2 s3 req1 in
  let started2 := start_otp started1.2 entropy2 t1 t2 t3 req2 in
  let verify otp :=
    (verify_otp started2.2 now
       (VerifyOtpRequest.mk (strip (StartOtpRequest.phone req2)) otp)).1 in
  started1.1 = Return {[ "ok" := VBool true; "demo_otp" := VStr code1;
                         "expires_in_sec" := VInt 300 ]}
  ∧ started2.1 = Return {[ "ok" := VBool true; "demo_otp" := VStr code2;
                           "expires_in_sec" := VInt 300 ]}
  ∧ (∀ otp, verify otp
            = Return {[ "ok" := VBool true; "verified" := VBool true ]}
            ↔ otp = code2)
  ∧ (∀ otp, otp ≠ code2 →
            verify otp = Raise (HTTPException 400 "Invalid OTP"))
  ∧ (code1 ≠ code2 →
     verify code1 = Raise (HTTPException 400 "Invalid OTP")).
Proof.
  intros _ Hnow code1 code2 started1 started2 verify.
  assert (∃ auth1, started1.2 = Some auth1) as [auth1 Hauth1]
    by (by eexists).
  assert (Hverify : ∀ otp,
    verify otp = if bool_decide (otp = code2)
                 then Return {[ "ok" := VBool true; "verified" := VBool true ]}
                 else Raise (HTTPException 400 "Invalid OTP")).
  { intros otp. unfold verify, started2. rewrite Hauth1.
    destruct (verify_after_start auth1 entropy2 t1 t2 t3 req2 now otp Hnow)
      as (auth' & record & -> & _ & ->).
    fold code2. by case_bool_decide. }
  split_and!; [by unfold started1|by unfold started2; rewrite Hauth1|..].
  - intros otp. rewrite Hverify. case_bool_decide; [done|].
    split; [discriminate|done].
  - intros otp Hne. rewrite Hverify. by rewrite bool_decide_eq_false_2.
  - intros Hne. rewrite Hverify. by rewrite bool_decide_eq_false_2.
Qed.

Lemma second_start_invalidates_first_witness :
  strip "5551234567" = strip " 5551234567 "
  ∧ 400 ≤ 200 + five_minutes
  ∧ pretty (randint 100000 999999 5) ≠ pretty (randint 100000 999999 7)
  ∧ (verify_otp
       (start_otp
          (start_otp (Some []) 5 0 1 2
             (StartOtpRequest.mk "Alice" "5551234567")).2
          7 200 201 202 (StartOtpRequest.mk "Alice" " 5551234567 ")).2
       400 (VerifyOtpRequest.mk (strip " 5551234567 ")
              (pretty (randint 100000 999999 5)))).1
    = Raise (HTTPException 400 "Invalid OTP").
Proof.
  split_and!; [by vm_compute..|].
  apply (second_start_invalidates_first [] 5 0 1 2
           (StartOtpRequest.mk "Alice" "5551234567") 7 200 201 202
           (StartOtpRequest.mk "Alice" " 5551234567 ") 400);
    by vm_compute.
Defined.

(** C5, refuted as stated: two starts for one phone whose draws coincide
    return the same code twice, and the verification with the first code
    succeeds. *)
Lemma equal_codes_first_code_accepted :
  let started1 :=
    start_otp (Some []) 5 0 1 2 (StartOtpRequest.mk "Alice" "5551234567") in
  let started2 :=
    start_otp started1.2 5 200 201 202
      (StartOtpRequest.mk "Alice" "5551234567") in
  started1.1 = Return {[ "ok" := VBool true; "demo_otp" := VStr "100005";
                         "expires_in_sec" := VInt 300 ]}
  ∧ started2.1 = Return {[ "ok" := VBool true; "demo_otp" := VStr "100005";
                           "expires_in_sec" := VInt 300 ]}
  ∧ (verify_otp started2.2 400
       (VerifyOtpRequest.mk "5551234567" "100005")).1
    = Return {[ "ok" := VBool true; "verified" := VBool true ]}.
Proof. split_and!; by vm_compute. Qed.

(** C9: [start_otp] files the record under the stripped phone and
    [verify_otp] looks the raw phone up: there is a valid request whose
    phone has leading whitespace for which, from the empty store, the start
    succeeds, the record exists under the stripped phone, and the
    verification with the very same phone string and the returned code, a
    valid request too, raises 404 and leaves the store as it is. *)
Theorem padded_phone_start_then_verify_not_found :
  ∃ req,
    StartOtpRequest.valid req = true
    ∧ strip (StartOtpRequest.phone req) ≠ StartOtpRequest.phone req
    ∧ ∀ entropy t1 t2 t3 now,
        let started := start_otp (Some []) entropy t1 t2 t3 req in
        let otp := pretty (randint 100000 999999 entropy) in
        let vreq := VerifyOtpRequest.mk (StartOtpRequest.phone req) otp in
        started.1 = Return {[ "ok" := VBool true; "demo_otp" := VStr otp;
                              "expires_in_sec" := VInt 300 ]}
        ∧ stored_field started.2 (strip (StartOtpRequest.phone req)) "phone"
          = Some (VStr (strip (StartOtpRequest.phone req)))
        ∧ VerifyOtpRequest.valid vreq = true
        ∧ verify_otp started.2 now vreq
          = (Raise (HTTPException 404 "Start verification first"),
             started.2).
Proof.
  exists (StartOtpRequest.mk "Alice" " 5551234567").
  split_and!; [by vm_compute..|].
  intros entropy t1 t2 t3 now started otp vreq. split_and!.
  - done.
  - apply start_otp_stored. by rewrite payload_lookup.
  - pose proof (randint_range 100000 999999 entropy ltac:(lia)).
    unfold vreq, otp, VerifyOtpRequest.valid. simpl VerifyOtpRequest.otp.
    rewrite pretty_Z_six_digits by lia. done.
  - by apply verify_raw_phone_not_found.
Qed.

(** C2, at the failing input: from the empty store, the start for the
    valid pair ("Alice", " 5551234567") returns the code "100005", and the
    verification that follows at once, with the same phone string and that
    code, raises 404 instead of succeeding; the record has been filed under
    "5551234567" and is left unverified. *)
Theorem start_then_verify_padded_phone :
  let req := StartOtpRequest.mk "Alice" " 5551234567" in
  let started := start_otp (Some []) 5 0 1 2 req in
  StartOtpRequest.valid req = true
  ∧ started.1 = Return {[ "ok" := VBool true; "demo_otp" := VStr "100005";
                          "expires_in_sec" := VInt 300 ]}
  ∧ verify_otp started.2 3 (VerifyOtpRequest.mk " 5551234567" "100005")
    = (Raise (HTTPException 404 "Start verification first"), started.2)
  ∧ stored_field started.2 "5551234567" "verified" = Some (VBool false)
  ∧ stored_field started.2 " 5551234567" "verified" = None.
Proof. split_and!; by vm_compute. Qed.

(** ** Stores reached from the empty one *)

Section reachable.
Implicit Types (q : string * value) (u : update) (d : doc).
Implicit Types (c auth : collection).

Lemma fresh_oid_above c d : d ∈ c → (_id d < fresh_oid c)%N.
Proof.
  induction c as [|x c IH]; simpl.
  - intros []%elem_of_nil.
  - intros [->|Hd%IH]%elem_of_cons; lia.
Qed.

Lemma fresh_oid_fresh c : fresh_oid c ∉ _id <$> c.
Proof.
  intros (d & Hid & Hd)%list_elem_of_fmap.
  apply fresh_oid_above in Hd. lia.
Qed.

Lemma update_one_ids q u b c :
  _id <$> update_one q u b c = _id <$> c
  ∨ _id <$> update_one q u b c = ((_id <$> c) ++ [fresh_oid c])%list.
Proof.
  destruct (find_one q c) as [d|] eqn:Hf.
  - destruct (find_one_split _ _ _ Hf) as (c1 & c2 & -> & Hc1).
    apply find_one_Some in Hf as [_ Hm].
    rewrite update_one_found by done. left.
    by rewrite !fmap_app, !fmap_cons.
  - destruct b.
    + rewrite update_one_absent by done. right. by rewrite fmap_app.
    + rewrite update_one_absent_noupsert by done. by left.
Qed.

Lemma update_one_NoDup q u b c :
  NoDup (_id <$> c) → NoDup (_id <$> update_one q u b c).
Proof.
  intros Hc. destruct (update_one_ids q u b c) as [->| ->]; [done|].
  apply NoDup_app. split_and!; [done| |apply NoDup_singleton].
  intros oid Hin ->%list_elem_of_singleton. by apply fresh_oid_fresh in Hin.
Qed.

Lemma handle_ids_NoDup db r :
  store_ids_NoDup db → store_ids_NoDup (handle db r).2.
Proof.
  intros Hdb. destruct r as [e t1 t2 t3 req|now req]; simpl.
  - destruct db as [auth|]; [|done]. rewrite start_otp_Some. simpl.
    by apply update_one_NoDup.
  - destruct (verify_otp_cases db now req)
      as [[e ->]|(auth & record & -> & _ & ->)]; [done|].
    simpl. by apply update_one_NoDup.
Qed.

Lemma run_ids_NoDup rs : store_ids_NoDup (run (Some []) rs).
Proof.
  assert (∀ db, store_ids_NoDup db → store_ids_NoDup (run db rs)) as H.
  { induction rs as [|r rs IH]; intros db Hdb; [done|].
    simpl. apply IH, handle_ids_NoDup, Hdb. }
  apply H. simpl. constructor.
Qed.

(** With distinct identifiers, the update by [_id] of the record found
    for a filter rewrites that very record. *)
Lemma find_one_update_by_id q u c d :
  NoDup (_id <$> c) →
  find_one q c = Some d →
  doc_matches q (apply_update u d) = true →
  find_one q (update_one ("_id", VId (_id d)) u false c)
  = Some (apply_update u d).
Proof.
  intros Hnd Hf Hm.
  destruct (find_one_split _ _ _ Hf) as (c1 & c2 & -> & Hc1).
  rewrite fmap_app, fmap_cons in Hnd.
  apply NoDup_app in Hnd as (_ & Hdisj & _).
  rewrite update_one_found.
  - by rewrite find_one_app, Hc1; simpl; rewrite Hm.
  - apply find_one_None, Forall_forall. intros x Hx.
    apply not_true_is_false. rewrite doc_matches_id. intros Hid.
    apply (Hdisj (_id x)); [by apply list_elem_of_fmap_2|].
    rewrite Hid. left.
  - by apply doc_matches_id.
Qed.

(** X15: for a phone without surrounding whitespace, on a store with
    distinct identifiers, a start followed by a verification with the same
    phone and the returned code, no later than the expiry, succeeds and
    leaves the record verified and without challenge. *)
Lemma start_then_verify_stripped auth entropy t1 t2 t3 req now :
  NoDup (_id <$> auth) →
  strip (StartOtpRequest.phone req) = StartOtpRequest.phone req →
  now ≤ t1 + five_minutes →
  let phone := StartOtpRequest.phone req in
  let started := start_otp (Some auth) entropy t1 t2 t3 req in
  let verified :=
    verify_otp started.2 now
      (VerifyOtpRequest.mk phone
         (pretty (randint 100000 999999 entropy))) in
  verified.1 = Return {[ "ok" := VBool true; "verified" := VBool true ]}
  ∧ stored_field verified.2 phone "verified" = Some (VBool true)
  ∧ stored_field verified.2 phone "otp_code" = None
  ∧ stored_field verified.2 phone "otp_expires" = None.
Proof.
  intros Hnd Hstrip Hnow phone started verified.
  subst phone started verified.
  destruct (verify_after_start auth entropy t1 t2 t3 req now
              (pretty (randint 100000 999999 entropy)) Hnow)
    as (auth' & record & Hauth' & Hf & Hv).
  rewrite Hstrip in Hf, Hv. rewrite bool_decide_eq_true_2 in Hv by done.
  assert (NoDup (_id <$> auth')) as Hnd'.
  { pose proof (handle_ids_NoDup (Some auth)
      (StartVerification entropy t1 t2 t3 req) Hnd) as H.
    change (store_ids_NoDup
              (start_otp (Some auth) entropy t1 t2 t3 req).2) in H.
    by rewrite Hauth' in H. }
  rewrite Hauth', Hv. cbn [fst snd].
  pose proof (find_one_Some _ _ _ Hf) as [_ Hphone%doc_matches_phone].
  unfold stored_field. cbn [mbind option_bind].
  rewrite (find_one_update_by_id _ verify_update _ record Hnd' Hf).
  - cbn [mbind option_bind]. rewrite !doc_get_field by done.
    by rewrite !verify_update_applied.
  - apply doc_matches_phone. by rewrite verify_update_applied.
Qed.

(** X16: from the empty store, a history without a start whose stripped
    phone is the phone of the request leaves no record for it, and the
    verification raises 404 and changes nothing. *)
Lemma run_never_started rs now req :
  Forall (λ r, ¬ starts_phone (VerifyOtpRequest.phone req) r) rs →
  verify_otp (run (Some []) rs) now req
  = (Raise (HTTPException 404 "Start verification first"),
     run (Some []) rs).
Proof.
  intros Hrs.
  assert (∀ auth,
    find_one ("phone", VStr (VerifyOtpRequest.phone req)) auth = None →
    ∃ auth', run (Some auth) rs = Some auth'
      ∧ find_one ("phone", VStr (VerifyOtpRequest.phone req)) auth' = None)
    as H.
  { induction Hrs as [|r rs Hr _ IH]; intros auth Hf; [by eexists|].
    change (run (Some auth) (r :: rs))
      with (run (handle (Some auth) r).2 rs).
    destruct r as [e t1 t2 t3 sreq|vnow vreq]; cbn [handle].
    - destruct (start_otp_keeps_absent auth e t1 t2 t3 sreq _ Hr Hf)
        as (auth' & -> & Hf'). by apply IH.
    - destruct (verify_otp_keeps_absent auth vnow vreq _ Hf)
        as (auth' & -> & Hf'). by apply IH. }
  destruct (H [] eq_refl) as (auth' & -> & Hf).
  by apply verify_otp_404.
Qed.
End reachable.

(** ** [str.strip] *)

Section strip.
Implicit Types (s : string) (a : ascii).

Lemma lstrip_no_leading_space s : no_leading_space (lstrip s).
Proof.
  induction s as [|a s IH]; simpl; [done|].
  destruct (py_isspace a) eqn:Ha; [done|]. simpl. done.
Qed.

Lemma lstrip_id s : no_leading_space s → lstrip s = s.
Proof. destruct s as [|a s]; simpl; [done|]. by intros ->. Qed.

Lemma rstrip_no_leading_space s :
  no_leading_space s → no_leading_space (rstrip s).
Proof.
  destruct s as [|a s]; simpl; [done|]. intros Ha. by rewrite Ha.
Qed.

Lemma rstrip_idemp s : rstrip (rstrip s) = rstrip s.
Proof.
  induction s as [|a s IH]; simpl; [done|].
  destruct (py_isspace a && bool_decide (rstrip s = "")) eqn:Hc; [done|].
  simpl. rewrite IH, Hc. done.
Qed.

Lemma strip_idemp s : strip (strip s) = strip s.
Proof.
  unfold strip.
  rewrite (lstrip_id (rstrip (lstrip s)))
    by apply rstrip_no_leading_space, lstrip_no_leading_space.
  apply rstrip_idemp.
Qed.
End strip.

(** ** The records of the stores the flow produces *)

Section records.
Implicit Types (d : doc) (auth : collection).

Lemma is_code_pretty (n : Z) :
  100000 ≤ n ≤ 999999 → is_code (pretty n) = true.
Proof.
  intros Hn. unfold is_code. rewrite pretty_Z_six_digits by lia.
  rewrite decimal_value_six_digits by lia.
  rewrite Z2N.id by lia.
  rewrite !andb_true_iff, bool_decide_eq_true. split_and!; [lia..|done].
Qed.

Lemma is_code_length s : is_code s = true → String.length s = 6%nat.
Proof.
  unfold is_code. destruct (decimal_value s); [|done].
  rewrite !andb_true_iff, bool_decide_eq_true. tauto.
Qed.

(** [auth_record], field by field. *)
Lemma auth_record_spec d :
  auth_record d = true ↔
  ∃ name phone verified created updated,
    fields d !! "name" = Some (VStr name)
    ∧ fields d !! "phone" = Some (VStr phone)
    ∧ fields d !! "verified" = Some (VBool verified)
    ∧ fields d !! "created_at" = Some (VTime created)
    ∧ fields d !! "updated_at" = Some (VTime updated)
    ∧ strip name = name ∧ strip phone = phone
    ∧ ((verified = false
        ∧ ∃ otp expires,
            fields d !! "otp_code" = Some (VStr otp)
            ∧ fields d !! "otp_expires" = Some (VTime expires)
            ∧ is_code otp = true)
       ∨ (verified = true
          ∧ fields d !! "otp_code" = None
          ∧ fields d !! "otp_expires" = None)).
Proof.
  unfold auth_record. split.
  - intros H.
    destruct (fields d !! "name") as [[| | |name| |]|]; try done.
    destruct (fields d !! "phone") as [[| | |phone| |]|]; try done.
    destruct (fields d !! "verified") as [[|verified| | | |]|]; try done.
    destruct (fields d !! "created_at") as [[| | | |created|]|]; try done.
    destruct (fields d !! "updated_at") as [[| | | |updated|]|]; try done.
    apply andb_true_iff in H as [[Hn%bool_decide_eq_true
                                  Hp%bool_decide_eq_true]%andb_true_iff H].
    exists name, phone, verified, created, updated.
    split_and!; try done.
    destruct (fields d !! "otp_code") as [[| | |otp| |]|];
      destruct (fields d !! "otp_expires") as [[| | | |expires|]|];
      try done.
    + apply andb_true_iff in H as [Hv%negb_true_iff Hc]. left. eauto 10.
    + right. done.
  - intros (name & phone & verified & created & updated
            & -> & -> & -> & -> & -> & Hn & Hp & Hstate).
    rewrite !bool_decide_eq_true_2 by done. simpl.
    destruct Hstate as [(-> & otp & expires & -> & -> & Hc)
                       |(-> & -> & ->)]; [by rewrite Hc|done].
Qed.

Lemma auth_record_start entropy t1 t2 t3 req d :
  auth_record d = true →
  auth_record (apply_update (start_update entropy t1 t2 t3 req) d) = true.
Proof.
  intros (name & phone & verified & created & updated
          & _ & _ & _ & Hc & _)%auth_record_spec.
  apply auth_record_spec.
  pose proof (randint_range 100000 999999 entropy ltac:(lia)).
  eexists _, _, false, created, _.
  rewrite !start_update_applied, !payload_lookup. simpl.
  split_and!; try done; try apply strip_idemp.
  left. split; [done|]. eexists _, _. split_and!; [done..|].
  by apply is_code_pretty.
Qed.

Lemma auth_record_inserted entropy t1 t2 t3 req auth :
  auth_record
    (inserted_doc ("phone", VStr (strip (StartOtpRequest.phone req)))
       (start_update entropy t1 t2 t3 req) auth) = true.
Proof.
  apply auth_record_spec.
  pose proof (randint_range 100000 999999 entropy ltac:(lia)).
  eexists _, _, false, t3, _.
  rewrite !start_update_inserted, !payload_lookup. simpl.
  split_and!; try done; try apply strip_idemp.
  left. split; [done|]. eexists _, _. split_and!; [done..|].
  by apply is_code_pretty.
Qed.

Lemma auth_record_verify d :
  auth_record d = true →
  auth_record (apply_update verify_update d) = true.
Proof.
  intros (name & phone & verified & created & updated
          & Hn & Hp & _ & Hc & Hu & Hsn & Hsp & _)%auth_record_spec.
  apply auth_record_spec.
  exists name, phone, true, created, updated.
  rewrite !verify_update_applied. simpl. split_and!; try done.
  right. done.
Qed.

Lemma handle_auth_record db r :
  store_Forall (λ d, auth_record d = true) db →
  store_Forall (λ d, auth_record d = true) (handle db r).2.
Proof.
  intros Hdb. destruct r as [e t1 t2 t3 req|now req]; simpl.
  - destruct db as [auth|]; [|done]. rewrite start_otp_Some. simpl in *.
    apply update_one_Forall; [done| |].
    + intros d Hd. rewrite Forall_forall in Hdb.
      by apply auth_record_start, Hdb.
    + intros _. apply auth_record_inserted.
  - destruct (verify_otp_cases db now req)
      as [[e ->]|(auth & record & -> & _ & ->)]; [done|].
    simpl in *. apply update_one_Forall; [done| |done].
    intros d Hd. rewrite Forall_forall in Hdb.
    by apply auth_record_verify, Hdb.
Qed.

Lemma run_auth_record db rs :
  store_Forall (λ d, auth_record d = true) db →
  store_Forall (λ d, auth_record d = true) (run db rs).
Proof. apply run_Forall, handle_auth_record. Qed.

(** X1: every document of every store reached from the empty one by
    starts and verifications is a well-formed record: [name] and [phone]
    are strings without surrounding whitespace, [created_at] and
    [updated_at] are timestamps, [verified] is a boolean, and the record is
    either pending ([verified] false, a six-digit code from 100000 to
    999999 and its expiry) or verified ([verified] true, no code and no
    expiry). *)
Theorem reachable_auth_record rs :
  store_Forall (λ d, auth_record d = true) (run (Some []) rs).
Proof. apply run_auth_record. simpl. constructor. Qed.
End records.

(** ** When [verify_otp] succeeds, and what it answers *)

Section answers.
Implicit Types (d : doc) (auth : collection).

Lemma verify_otp_success_inv auth now req :
  (verify_otp (Some auth) now req).1
    = Return {[ "ok" := VBool true; "verified" := VBool true ]} →
  ∃ record expires,
    find_one ("phone", VStr (VerifyOtpRequest.phone req)) auth = Some record
    ∧ fields record !! "otp_code" = Some (VStr (VerifyOtpRequest.otp req))
    ∧ VerifyOtpRequest.otp req ≠ ""
    ∧ fields record !! "otp_expires" = Some (VTime expires)
    ∧ now ≤ expires.
Proof.
  unfold verify_otp.
  destruct (find_one _ auth) as [record|] eqn:Hf; [|done].
  rewrite !doc_get_field by done.
  destruct (truthy (fields record !! "otp_code")) eqn:Hcode; [|done].
  destruct (truthy (fields record !! "otp_expires")) eqn:Hexp; [|done].
  simpl.
  destruct (fields record !! "otp_expires") as [[| | | |expires|]|]
    eqn:Hlookup; try done.
  destruct (Z.gtb_spec now expires); [done|].
  case_bool_decide as Heq; [|done]. intros _.
  exists record, expires. rewrite <-Heq in Hcode |- *.
  split_and!; try done.
  intros Hempty. rewrite Hempty in Hcode. done.
Qed.

(** X2: [verify_otp] returns its success body exactly when the phone of
    the request has a record whose [otp_code] is the submitted string, not
    empty, and whose [otp_expires] is a timestamp not before the clock. *)
Theorem verify_otp_success_iff auth now req :
  (verify_otp (Some auth) now req).1
    = Return {[ "ok" := VBool true; "verified" := VBool true ]}
  ↔ ∃ record expires,
      find_one ("phone", VStr (VerifyOtpRequest.phone req)) auth
        = Some record
      ∧ fields record !! "otp_code" = Some (VStr (VerifyOtpRequest.otp req))
      ∧ VerifyOtpRequest.otp req ≠ ""
      ∧ fields record !! "otp_expires" = Some (VTime expires)
      ∧ now ≤ expires.
Proof.
  split; [apply verify_otp_success_inv|].
  intros (record & expires & Hf & Hcode & Hne & Hexp & Hnow).
  rewrite (verify_otp_challenge _ _ _ record expires Hf);
    [|rewrite Hcode; simpl; by rewrite bool_decide_eq_false_2|done].
  destruct (Z.gtb_spec now expires); [lia|].
  by rewrite bool_decide_eq_true_2.
Qed.

Lemma run_Some auth rs : ∃ auth', run (Some auth) rs = Some auth'.
Proof.
  revert auth. induction rs as [|r rs IH]; intros auth; [by eexists|].
  change (run (Some auth) (r :: rs))
    with (run (handle (Some auth) r).2 rs).
  destruct r as [e t1 t2 t3 req|now req]; cbn [handle].
  - rewrite start_otp_Some. apply IH.
  - destruct (verify_otp_cases (Some auth) now req)
      as [[e ->]|(auth0 & record & _ & _ & ->)]; apply IH.
Qed.

Lemma verify_otp_answers auth now req :
  Forall (λ d, auth_record d = true) auth →
  (verify_otp (Some auth) now req).1 ∈ verify_answers.
Proof.
  intros Hauth. unfold verify_answers.
  destruct (find_one ("phone", VStr (VerifyOtpRequest.phone req)) auth)
    as [record|] eqn:Hf.
  - pose proof (find_one_Some _ _ _ Hf) as [Hin _].
    rewrite Forall_forall in Hauth.
    apply Hauth, auth_record_spec in Hin
      as (name & phone & verified & created & updated & _ & _ & _ & _ & _
          & _ & _ & Hstate).
    destruct Hstate as [(_ & otp & expires & Hcode & Hexp & Hc)
                       |(_ & Hcode & Hexp)].
    + rewrite (verify_otp_challenge _ _ _ record expires Hf);
        [|rewrite Hcode; apply is_code_length in Hc; by destruct otp|done].
      destruct (now >? expires); [set_solver|].
      case_bool_decide; set_solver.
    + unfold verify_otp. rewrite Hf, !doc_get_field, Hcode by done.
      simpl. set_solver.
  - rewrite verify_otp_404 by done. set_solver.
Qed.

(** X3: on every store reached from the empty one, [verify_otp] gives
    one of five answers: the success body, 404, or 400 with one of its
    three details. It never raises the type error of a comparison with a
    stored value that is not a timestamp, nor 500. *)
Theorem reachable_verify_answers rs now req :
  (verify_otp (run (Some []) rs) now req).1 ∈ verify_answers.
Proof.
  pose proof (run_auth_record (Some []) rs ltac:(by constructor)) as Hinv.
  destruct (run_Some [] rs) as [auth Hrun]. rewrite Hrun in *.
  by apply verify_otp_answers.
Qed.

(** X4: on every store reached from the empty one, a verification whose
    phone has leading or trailing whitespace raises 404 and changes
    nothing: no record is ever filed under such a phone. *)
Theorem reachable_padded_phone_not_found rs now req :
  strip (VerifyOtpRequest.phone req) ≠ VerifyOtpRequest.phone req →
  verify_otp (run (Some []) rs) now req
  = (Raise (HTTPException 404 "Start verification first"),
     run (Some []) rs).
Proof.
  intros Hpad. pose proof (run_auth_record (Some []) rs ltac:(by constructor)) as Hinv.
  destruct (run_Some [] rs) as [auth Hrun]. rewrite Hrun in *.
  apply verify_otp_404.
  destruct (find_one _ auth) as [record|] eqn:Hf; [|done].
  apply find_one_Some in Hf as [Hin Hm%doc_matches_phone].
  simpl in Hinv. rewrite Forall_forall in Hinv.
  apply Hinv, auth_record_spec in Hin
    as (name & phone & verified & created & updated & _ & Hp & _ & _ & _
        & _ & Hsp & _).
  rewrite Hm in Hp. injection Hp as <-. done.
Qed.

(** X5: on every store reached from the empty one, a verification whose
    code does not have exactly six characters never succeeds, although the
    request model admits codes of four and five characters. *)
Theorem reachable_short_code_rejected rs now req body :
  String.length (VerifyOtpRequest.otp req) ≠ 6%nat →
  (verify_otp (run (Some []) rs) now req).1 ≠ Return body.
Proof.
  intros Hlen Hret. pose proof (run_auth_record (Some []) rs ltac:(by constructor)) as Hinv.
  destruct (run_Some [] rs) as [auth Hrun]. rewrite Hrun in *.
  assert (body = {[ "ok" := VBool true; "verified" := VBool true ]}) as ->.
  { destruct (verify_otp_cases (Some auth) now req)
      as [[e He]|(auth0 & record & _ & _ & He)];
      rewrite He in Hret; simpl in Hret; congruence. }
  apply verify_otp_success_inv in Hret
    as (record & expires & Hf & Hcode & _ & _ & _).
  apply find_one_Some in Hf as [Hin _].
  simpl in Hinv. rewrite Forall_forall in Hinv.
  apply Hinv, auth_record_spec in Hin
    as (name & phone & verified & created & updated & _ & _ & _ & _ & _
        & _ & _ & Hstate).
  destruct Hstate as [(_ & otp & expires' & Hcode' & _ & Hc)
                     |(_ & Hcode' & _)]; [|congruence].
  rewrite Hcode in Hcode'. injection Hcode' as <-.
  by apply is_code_length in Hc.
Qed.
End answers.

Lemma reachable_padded_phone_not_found_witness :
  strip " 5551234567" ≠ " 5551234567"
  ∧ verify_otp
      (run (Some [])
         [StartVerification 5 0 1 2
            (StartOtpRequest.mk "Alice" " 5551234567")])
      3 (VerifyOtpRequest.mk " 5551234567" "100005")
    = (Raise (HTTPException 404 "Start verification first"),
       run (Some [])
         [StartVerification 5 0 1 2
            (StartOtpRequest.mk "Alice" " 5551234567")]).
Proof.
  split; [by vm_compute|].
  apply (reachable_padded_phone_not_found
           [StartVerification 5 0 1 2
              (StartOtpRequest.mk "Alice" " 5551234567")]
           3 (VerifyOtpRequest.mk " 5551234567" "100005")).
  by vm_compute.
Defined.

Lemma reachable_short_code_rejected_witness :
  String.length "1000" ≠ 6%nat
  ∧ (verify_otp
       (run (Some [])
          [StartVerification 5 0 1 2
             (StartOtpRequest.mk "Alice" "5551234567")])
       3 (VerifyOtpRequest.mk "5551234567" "1000")).1
    ≠ Return {[ "ok" := VBool true; "verified" := VBool true ]}.
Proof.
  split; [by vm_compute|].
  apply (reachable_short_code_rejected
           [StartVerification 5 0 1 2
              (StartOtpRequest.mk "Alice" "5551234567")]
           3 (VerifyOtpRequest.mk "5551234567" "1000")).
  by vm_compute.
Defined.

(** ** The writes of the two handlers *)

Section writes.
Implicit Types (q : string * value) (u : update) (d : doc).
Implicit Types (c auth : collection).

(** X6: for a phone that has no record, [start_otp] appends one document
    and changes no other: its identifier is new, and its fields are the
    six of the payload and [created_at], the third reading of the clock. *)
Theorem start_otp_new_record auth entropy t1 t2 t3 req :
  find_one ("phone", VStr (strip (StartOtpRequest.phone req))) auth = None →
  ∃ d',
    (start_otp (Some auth) entropy t1 t2 t3 req).2 = Some (auth ++ [d'])%list
    ∧ (_id d' ∉ _id <$> auth)
    ∧ fields d' =
        <[ "created_at" := VTime t3 ]>
          (payload req (pretty (randint 100000 999999 entropy))
             (t1 + five_minutes) t2).
Proof.
  intros Hf. rewrite start_otp_Some. cbn [snd].
  rewrite update_one_absent by done. eexists. split_and!; [done|..].
  - apply fresh_oid_fresh.
  - apply map_eq. intros k.
    rewrite start_update_inserted, lookup_insert.
    case_decide as Hk.
    + subst k. by rewrite payload_lookup.
    + rewrite bool_decide_eq_false_2 by done.
      by destruct (payload _ _ _ _ !! k).
Qed.

Lemma start_otp_new_record_witness :
  find_one ("phone", VStr (strip "5550000000")) sample_auth = None
  ∧ ∃ d',
      (start_otp (Some sample_auth) 7 20 21 22
         (StartOtpRequest.mk "Carol" "5550000000")).2
        = Some (sample_auth ++ [d'])%list
      ∧ fields d' !! "created_at" = Some (VTime 22).
Proof.
  split; [by vm_compute|].
  destruct (start_otp_new_record sample_auth 7 20 21 22
              (StartOtpRequest.mk "Carol" "5550000000"))
    as (d' & Hdb & _ & Hfields); [by vm_compute|].
  exists d'. split; [exact Hdb|].
  rewrite Hfields. apply lookup_insert_eq.
Defined.

(** With distinct identifiers, the update by [_id] rewrites the document
    it was read from, in place. *)
Lemma update_by_id_split u b c1 d c2 :
  NoDup (_id <$> (c1 ++ d :: c2)%list) →
  update_one ("_id", VId (_id d)) u b (c1 ++ d :: c2)%list
  = (c1 ++ apply_update u d :: c2)%list.
Proof.
  intros Hnd. rewrite fmap_app, fmap_cons in Hnd.
  apply NoDup_app in Hnd as (_ & Hdisj & _).
  apply update_one_found; [|by apply doc_matches_id].
  apply find_one_None, Forall_forall. intros x Hx.
  apply not_true_is_false. rewrite doc_matches_id. intros Hid.
  apply (Hdisj (_id x)); [by apply list_elem_of_fmap_2|].
  rewrite Hid. left.
Qed.

Lemma verify_otp_success_split auth now req record :
  NoDup (_id <$> auth) →
  find_one ("phone", VStr (VerifyOtpRequest.phone req)) auth = Some record →
  (verify_otp (Some auth) now req).1
    = Return {[ "ok" := VBool true; "verified" := VBool true ]} →
  ∃ c1 c2,
    auth = (c1 ++ record :: c2)%list
    ∧ (verify_otp (Some auth) now req).2
      = Some (c1 ++ apply_update verify_update record :: c2)%list
    ∧ find_one ("phone", VStr (VerifyOtpRequest.phone req))
        (c1 ++ apply_update verify_update record :: c2)%list
      = Some (apply_update verify_update record).
Proof.
  intros Hnd Hf Hret.
  destruct (verify_otp_cases (Some auth) now req)
    as [[e He]|(auth0 & record0 & [= <-] & Hf0 & He)];
    [rewrite He in Hret; simpl in Hret; congruence|].
  rewrite Hf in Hf0. injection Hf0 as <-. rewrite He. cbn [snd].
  destruct (find_one_split _ _ _ Hf) as (c1 & c2 & -> & Hc1).
  apply find_one_Some in Hf as [_ Hphone%doc_matches_phone].
  exists c1, c2.
  fold verify_update. rewrite update_by_id_split by done.
  split_and!; [done..|].
  rewrite find_one_app, Hc1. simpl.
  assert (doc_matches ("phone", VStr (VerifyOtpRequest.phone req))
            (apply_update verify_update record) = true) as ->; [|done].
  apply doc_matches_phone. by rewrite verify_update_applied.
Qed.

(** X7: on a store with distinct identifiers, a successful [verify_otp]
    rewrites the record of the phone in place: [verified] becomes true,
    [otp_code] and [otp_expires] are removed, and every other field
    ([updated_at] included), the identifier and every other document stay
    as they were. *)
Theorem verify_otp_success_effect auth now req record :
  NoDup (_id <$> auth) →
  find_one ("phone", VStr (VerifyOtpRequest.phone req)) auth = Some record →
  (verify_otp (Some auth) now req).1
    = Return {[ "ok" := VBool true; "verified" := VBool true ]} →
  ∃ c1 c2 d',
    auth = (c1 ++ record :: c2)%list
    ∧ (verify_otp (Some auth) now req).2 = Some (c1 ++ d' :: c2)%list
    ∧ find_one ("phone", VStr (VerifyOtpRequest.phone req))
        (c1 ++ d' :: c2)%list = Some d'
    ∧ _id d' = _id record
    ∧ fields d' !! "verified" = Some (VBool true)
    ∧ fields d' !! "otp_code" = None
    ∧ fields d' !! "otp_expires" = None
    ∧ ∀ k, k ∉ ["otp_code"; "otp_expires"; "verified"]
           → fields d' !! k = fields record !! k.
Proof.
  intros Hnd Hf Hret.
  destruct (verify_otp_success_split auth now req record Hnd Hf Hret)
    as (c1 & c2 & Hauth & Hdb & Hf').
  exists c1, c2, (apply_update verify_update record).
  split_and!; try done; try (by rewrite verify_update_applied).
  intros k Hk. rewrite verify_update_applied.
  repeat case_bool_decide; subst; try done;
    exfalso; apply Hk; apply (bool_decide_unpack _); by vm_compute.
Qed.

Lemma verify_otp_success_effect_witness :
  NoDup (_id <$> sample_auth)
  ∧ find_one ("phone", VStr "5557654321") sample_auth = Some bob_pending
  ∧ (verify_otp (Some sample_auth) 60
       (VerifyOtpRequest.mk "5557654321" "424242")).1
    = Return {[ "ok" := VBool true; "verified" := VBool true ]}
  ∧ ∃ d',
      (find_one ("phone", VStr "5557654321") <$>
         (verify_otp (Some sample_auth) 60
            (VerifyOtpRequest.mk "5557654321" "424242")).2)
        = Some (Some d')
      ∧ fields d' !! "updated_at" = fields bob_pending !! "updated_at".
Proof.
  assert (NoDup (_id <$> sample_auth)) as Hnd
    by (apply (bool_decide_unpack _); by vm_compute).
  split_and!; [done|by vm_compute..|].
  destruct (verify_otp_success_effect sample_auth 60
              (VerifyOtpRequest.mk "5557654321" "424242") bob_pending Hnd)
    as (c1 & c2 & d' & _ & Hdb & Hf & _ & _ & _ & _ & Hframe);
    [by vm_compute..|].
  exists d'. rewrite Hdb. simpl. split; [by f_equal|].
  apply Hframe. apply (bool_decide_unpack _). by vm_compute.
Defined.

(** X8: a code is used once. On a store with distinct identifiers, after
    a successful [verify_otp] every further verification for that phone,
    whatever its code and its time, raises 400 "No OTP generated" and
    changes nothing. *)
Theorem verify_otp_single_use auth now req now' otp' :
  NoDup (_id <$> auth) →
  (verify_otp (Some auth) now req).1
    = Return {[ "ok" := VBool true; "verified" := VBool true ]} →
  verify_otp (verify_otp (Some auth) now req).2 now'
    (VerifyOtpRequest.mk (VerifyOtpRequest.phone req) otp')
  = (Raise (HTTPException 400 "No OTP generated"),
     (verify_otp (Some auth) now req).2).
Proof.
  intros Hnd Hret.
  pose proof Hret as (record & _ & Hf & _)%verify_otp_success_inv.
  destruct (verify_otp_success_split auth now req record Hnd Hf Hret)
    as (c1 & c2 & _ & -> & Hf').
  unfold verify_otp. simpl VerifyOtpRequest.phone. rewrite Hf'.
  rewrite !doc_get_field by done. by rewrite !verify_update_applied.
Qed.

Lemma verify_otp_single_use_witness :
  NoDup (_id <$> sample_auth)
  ∧ (verify_otp (Some sample_auth) 60
       (VerifyOtpRequest.mk "5557654321" "424242")).1
    = Return {[ "ok" := VBool true; "verified" := VBool true ]}
  ∧ (verify_otp
       (verify_otp (Some sample_auth) 60
          (VerifyOtpRequest.mk "5557654321" "424242")).2
       61 (VerifyOtpRequest.mk "5557654321" "424242")).1
    = Raise (HTTPException 400 "No OTP generated").
Proof.
  assert (NoDup (_id <$> sample_auth)) as Hnd
    by (apply (bool_decide_unpack _); by vm_compute).
  split_and!; [done|by vm_compute|].
  pose proof (verify_otp_single_use sample_auth 60
                (VerifyOtpRequest.mk "5557654321" "424242") 61 "424242" Hnd)
    as Hagain.
  exact (f_equal fst (Hagain ltac:(by vm_compute))).
Defined.
End writes.

(** ** Code and expiry go together *)

(** C4: in a document [otp_code] and [otp_expires] are both present or both
    absent, and [start_otp] and [verify_otp] keep this true of every stored
    document. [start_otp] sets both: after it the record of the phone has
    the two fields. A successful [verify_otp] removes both: on a store with
    distinct identifiers, the record of the phone had the two fields before
    the call and has neither after it, with [verified] true. *)
Theorem otp_pair_inv_preserved :
  (∀ db entropy t1 t2 t3 req,
     store_Forall otp_pair_inv db →
     store_Forall otp_pair_inv (start_otp db entropy t1 t2 t3 req).2)
  ∧ (∀ db now req,
       store_Forall otp_pair_inv db →
       store_Forall otp_pair_inv (verify_otp db now req).2)
  ∧ (∀ auth entropy t1 t2 t3 req,
       let db' := (start_otp (Some auth) entropy t1 t2 t3 req).2 in
       let phone := strip (StartOtpRequest.phone req) in
       is_Some (stored_field db' phone "otp_code")
       ∧ is_Some (stored_field db' phone "otp_expires"))
  ∧ (∀ auth now req,
       NoDup (_id <$> auth) →
       (verify_otp (Some auth) now req).1
         = Return {[ "ok" := VBool true; "verified" := VBool true ]} →
       let db' := (verify_otp (Some auth) now req).2 in
       let phone := VerifyOtpRequest.phone req in
       is_Some (stored_field (Some auth) phone "otp_code")
       ∧ is_Some (stored_field (Some auth) phone "otp_expires")
       ∧ stored_field db' phone "verified" = Some (VBool true)
       ∧ stored_field db' phone "otp_code" = None
       ∧ stored_field db' phone "otp_expires" = None).
Proof.
  split_and!.
  - intros. apply start_otp_Forall; [| |done].
    + intros d. unfold otp_pair_inv.
      rewrite !start_update_applied, !payload_lookup. simpl.
      split; eauto.
    + intros auth. unfold otp_pair_inv.
      rewrite !start_update_inserted, !payload_lookup. simpl.
      split; eauto.
  - intros. apply verify_otp_Forall; [|done].
    intros d. unfold otp_pair_inv. rewrite !verify_update_applied. simpl.
    split; intros [? [=]].
  - intros. split; eexists; apply start_otp_stored;
      by rewrite payload_lookup.
  - intros auth now req Hnd Hret db' phone. subst db' phone.
    pose proof Hret
      as (record & expires & Hf & Hcode & _ & Hexp & _)%verify_otp_success_inv.
    destruct (verify_otp_success_split auth now req record Hnd Hf Hret)
      as (c1 & c2 & _ & Hdb & Hf').
    rewrite Hdb. unfold stored_field. cbn [mbind option_bind].
    rewrite Hf, Hf'. cbn [mbind option_bind].
    rewrite !doc_get_field by done.
    rewrite Hcode, Hexp, !verify_update_applied.
    split_and!; by eauto.
Qed.

Lemma otp_pair_inv_preserved_witness :
  NoDup (_id <$> sample_auth)
  ∧ (verify_otp (Some sample_auth) 60
       (VerifyOtpRequest.mk "5557654321" "424242")).1
    = Return {[ "ok" := VBool true; "verified" := VBool true ]}
  ∧ stored_field (Some sample_auth) "5557654321" "otp_code"
    = Some (VStr "424242")
  ∧ stored_field
      (verify_otp (Some sample_auth) 60
         (VerifyOtpRequest.mk "5557654321" "424242")).2
      "5557654321" "otp_code" = None
  ∧ stored_field
      (verify_otp (Some sample_auth) 60
         (VerifyOtpRequest.mk "5557654321" "424242")).2
      "5557654321" "otp_expires" = None
  ∧ store_Forall otp_pair_inv
      (verify_otp sample_store 60
         (VerifyOtpRequest.mk "5557654321" "424242")).2.
Proof.
  assert (NoDup (_id <$> sample_auth)) as Hnd
    by (apply (bool_decide_unpack _); by vm_compute).
  assert (store_Forall otp_pair_inv sample_store) as Hinv
    by (repeat constructor; vm_compute; (split; intros [? [=]]) || eauto).
  destruct (proj2 (proj2 (proj2 otp_pair_inv_preserved)) sample_auth 60
              (VerifyOtpRequest.mk "5557654321" "424242") Hnd)
    as (_ & _ & _ & Hcode & Hexp); [by vm_compute|].
  split_and!; [done|by vm_compute|by vm_compute|exact Hcode|exact Hexp|].
  apply (proj1 (proj2 otp_pair_inv_preserved)), Hinv.
Defined.

(** ** The validity window and repeated attempts *)

Section attempts.
Implicit Types (d : doc) (auth : collection).

Lemma start_otp_challenge auth entropy t1 t2 t3 req :
  ∃ auth' record,
    (start_otp (Some auth) entropy t1 t2 t3 req).2 = Some auth'
    ∧ find_one ("phone", VStr (strip (StartOtpRequest.phone req))) auth'
      = Some record
    ∧ fields record !! "otp_code"
      = Some (VStr (pretty (randint 100000 999999 entropy)))
    ∧ fields record !! "otp_expires" = Some (VTime (t1 + five_minutes)).
Proof.
  rewrite start_otp_Some. cbn [snd].
  pose proof (start_otp_record auth entropy t1 t2 t3 req) as Hrec.
  simpl in Hrec.
  destruct (find_one _ auth) as [d|].
  - destruct Hrec as (c1 & c2 & _ & _ & _ & Hf).
    eexists _, _. split_and!; [done|exact Hf|..];
      by rewrite start_update_applied, payload_lookup.
  - destruct Hrec as [_ Hf].
    eexists _, _. split_and!; [done|exact Hf|..];
      by rewrite start_update_inserted, payload_lookup.
Qed.

(** X9: the code is valid for five minutes from the first reading of the
    clock, bounds included, which is the 300 seconds that [start_otp]
    reports. For a verification under the stored phone after a start: it
    raises 400 "OTP expired" exactly when the clock is past that instant,
    whatever the code; up to that instant it succeeds exactly with the
    returned code and raises 400 "Invalid OTP" exactly with any other. *)
Theorem start_then_verify_window auth entropy t1 t2 t3 req now otp :
  let code := pretty (randint 100000 999999 entropy) in
  let started := start_otp (Some auth) entropy t1 t2 t3 req in
  let answer :=
    (verify_otp started.2 now
       (VerifyOtpRequest.mk (strip (StartOtpRequest.phone req)) otp)).1 in
  started.1 = Return {[ "ok" := VBool true; "demo_otp" := VStr code;
                        "expires_in_sec"
                          := VInt (five_minutes `div` 1000000) ]}
  ∧ (answer = Raise (HTTPException 400 "OTP expired")
     ↔ t1 + five_minutes < now)
  ∧ (answer = Return {[ "ok" := VBool true; "verified" := VBool true ]}
     ↔ now ≤ t1 + five_minutes ∧ otp = code)
  ∧ (answer = Raise (HTTPException 400 "Invalid OTP")
     ↔ now ≤ t1 + five_minutes ∧ otp ≠ code).
Proof.
  intros code started answer. split; [done|].
  subst started answer.
  destruct (start_otp_challenge auth entropy t1 t2 t3 req)
    as (auth' & record & -> & Hf & Hcode & Hexp).
  rewrite (verify_otp_challenge _ _ _ record (t1 + five_minutes));
    [|done|by rewrite Hcode, code_truthy|done].
  rewrite Hcode. fold code. simpl VerifyOtpRequest.otp.
  destruct (Z.gtb_spec now (t1 + five_minutes)); cbn [fst].
  - split_and!.
    + done.
    + split; [done|]. intros [? _]. lia.
    + split; [done|]. intros [? _]. lia.
  - case_bool_decide as Heq; cbn [fst].
    + injection Heq as Heq. split_and!.
      * split; [done|lia].
      * done.
      * split; [done|]. intros [_ Hne]. by destruct Hne.
    + assert (otp ≠ code) by congruence. split_and!.
      * split; [done|lia].
      * split; [done|]. intros [_ ?]. done.
      * done.
Qed.

Lemma handle_error_no_write db r e :
  (handle db r).1 = Raise e → (handle db r).2 = db.
Proof.
  destruct r as [entropy t1 t2 t3 req|now req]; cbn [handle].
  - destruct db as [auth|]; [by rewrite start_otp_Some|done].
  - destruct (verify_otp_cases db now req)
      as [[e' ->]|(auth & record & -> & _ & ->)]; [done|].
    simpl. discriminate.
Qed.

(** X10: requests that fail leave no trace, and nothing counts them: when
    each request of a sequence would raise on a store, the store after
    the whole sequence is that store. So wrong guesses do not use up the
    pending code, and there is no limit on their number. *)
Theorem failed_requests_no_effect db rs :
  Forall (λ r, ∃ e, (handle db r).1 = Raise e) rs → run db rs = db.
Proof.
  induction 1 as [|r rs [e He] _ IH]; [done|].
  change (run db (r :: rs)) with (run (handle db r).2 rs).
  by rewrite (handle_error_no_write db r e He).
Qed.

Lemma failed_requests_no_effect_witness :
  Forall (λ r, ∃ e, (handle sample_store r).1 = Raise e)
    [ VerifyCode 60 (VerifyOtpRequest.mk "5557654321" "000000");
      VerifyCode 61 (VerifyOtpRequest.mk "5557654321" "000001");
      VerifyCode 62 (VerifyOtpRequest.mk "5550000000" "424242") ]
  ∧ (verify_otp
       (run sample_store
          [ VerifyCode 60 (VerifyOtpRequest.mk "5557654321" "000000");
            VerifyCode 61 (VerifyOtpRequest.mk "5557654321" "000001");
            VerifyCode 62 (VerifyOtpRequest.mk "5550000000" "424242") ])
       63 (VerifyOtpRequest.mk "5557654321" "424242")).1
    = Return {[ "ok" := VBool true; "verified" := VBool true ]}.
Proof.
  assert (Forall (λ r, ∃ e, (handle sample_store r).1 = Raise e)
    [ VerifyCode 60 (VerifyOtpRequest.mk "5557654321" "000000");
      VerifyCode 61 (VerifyOtpRequest.mk "5557654321" "000001");
      VerifyCode 62 (VerifyOtpRequest.mk "5550000000" "424242") ]) as Hfail
    by (repeat constructor; eexists; by vm_compute).
  split; [exact Hfail|].
  rewrite (failed_requests_no_effect sample_store _ Hfail).
  by vm_compute.
Defined.
End attempts.

(** ** One record per phone, never removed *)

Section keys.
Implicit Types (q : string * value) (u : update) (d : doc).
Implicit Types (c auth : collection).

Lemma find_one_phone_keys p c :
  find_one ("phone", VStr p) c = None ↔ Some (VStr p) ∉ phone_keys c.
Proof.
  rewrite find_one_None, Forall_forall. unfold phone_keys.
  rewrite list_elem_of_fmap. split.
  - intros Hc (d & Hd & Hin). apply Hc in Hin.
    apply not_true_iff_false in Hin. by rewrite doc_matches_phone in Hin.
  - intros Hc d Hin. apply not_true_is_false.
    rewrite doc_matches_phone. intros Hd. apply Hc. eauto.
Qed.

(** A request keeps every document at its place with its identifier and
    its phone, or appends one document with a new identifier and a new
    phone. *)
Lemma handle_growth auth r :
  ∃ auth',
    (handle (Some auth) r).2 = Some auth'
    ∧ ((_id <$> auth' = _id <$> auth ∧ phone_keys auth' = phone_keys auth)
       ∨ ∃ d', auth' = (auth ++ [d'])%list
               ∧ (_id d' ∉ _id <$> auth)
               ∧ (fields d' !! "phone" ∉ phone_keys auth)).
Proof.
  destruct r as [entropy t1 t2 t3 req|now req]; cbn [handle].
  - rewrite start_otp_Some. cbn [snd]. eexists. split; [done|].
    pose proof (start_otp_record auth entropy t1 t2 t3 req) as Hrec.
    simpl in Hrec.
    destruct (find_one _ auth) as [d|] eqn:Hf.
    + destruct Hrec as (c1 & c2 & -> & _ & -> & _). left.
      apply find_one_Some in Hf as [_ Hphone%doc_matches_phone].
      unfold phone_keys. rewrite !fmap_app, !fmap_cons.
      split; [done|]. do 2 f_equal.
      by rewrite start_update_applied, payload_lookup.
    + destruct Hrec as [-> _]. right. eexists. split_and!; [done|..].
      * apply fresh_oid_fresh.
      * rewrite start_update_inserted, payload_lookup. simpl.
        by apply find_one_phone_keys.
  - destruct (verify_otp_cases (Some auth) now req)
      as [[e ->]|(auth0 & record & [= <-] & _ & ->)]; cbn [snd].
    { eexists. split; [done|]. by left. }
    eexists. split; [done|]. left. fold verify_update.
    destruct (find_one ("_id", VId (_id record)) auth) as [d|] eqn:Hf.
    + destruct (find_one_split _ _ _ Hf) as (c1 & c2 & -> & Hc1).
      apply find_one_Some in Hf as [_ Hm].
      rewrite update_one_found by done.
      unfold phone_keys. rewrite !fmap_app, !fmap_cons.
      split; [done|]. do 2 f_equal. by rewrite verify_update_applied.
    + by rewrite update_one_absent_noupsert.
Qed.

Lemma handle_keys_NoDup db r :
  store_keys_NoDup db → store_keys_NoDup (handle db r).2.
Proof.
  destruct db as [auth|].
  - intros Hnd. simpl in Hnd.
    destruct (handle_growth auth r)
      as (auth' & -> & [[_ Hk]|(d' & -> & _ & Hnew)]); simpl.
    + by rewrite Hk.
    + unfold phone_keys. rewrite fmap_app. apply NoDup_app.
      split_and!; [done| |apply NoDup_singleton].
      intros k Hin ->%list_elem_of_singleton. done.
  - intros _. by destruct r.
Qed.

(** X11: at most one record per phone: in every store reached from the
    empty one, the phones of the documents are pairwise distinct. *)
Theorem reachable_keys_NoDup rs : store_keys_NoDup (run (Some []) rs).
Proof.
  assert (∀ db, store_keys_NoDup db → store_keys_NoDup (run db rs)) as H.
  { induction rs as [|r rs IH]; intros db Hdb; [done|].
    change (run db (r :: rs)) with (run (handle db r).2 rs).
    apply IH, handle_keys_NoDup, Hdb. }
  apply H. simpl. constructor.
Qed.

(** X12: no request removes, moves or re-keys a record: after any
    sequence of requests on any store, the identifiers and the phones of
    the documents that were there are those of the first documents of the
    collection, in the same order. *)
Theorem run_keeps_records auth rs :
  ∃ auth',
    run (Some auth) rs = Some auth'
    ∧ (_id <$> auth) `prefix_of` (_id <$> auth')
    ∧ phone_keys auth `prefix_of` phone_keys auth'.
Proof.
  revert auth. induction rs as [|r rs IH]; intros auth.
  { exists auth. done. }
  change (run (Some auth) (r :: rs))
    with (run (handle (Some auth) r).2 rs).
  destruct (handle_growth auth r) as (auth1 & -> & Hgrow).
  destruct (IH auth1) as (auth' & Hrun & Hids & Hkeys).
  exists auth'. split; [done|].
  destruct Hgrow as [[Hid Hk]|(d' & -> & _ & _)].
  - by rewrite <-Hid, <-Hk.
  - unfold phone_keys in *. rewrite !fmap_app in *.
    split; (etrans; [apply prefix_app_r; reflexivity|done]).
Qed.
End keys.

(** ** The diagnostic endpoint *)

Section diagnostic.
Implicit Types (imported : import_db) (getenv : string → option string).

(** X13: in the answer of [GET /test] the fields [database_url] and
    [database_name] say only whether the environment variables
    DATABASE_URL and DATABASE_NAME are set to a non-empty string: whatever
    the import gave, they are never left null and never carry
    "Configured" or the name of the database, which the handler writes
    first and then overwrites. *)
Theorem test_database_env imported getenv :
  let r := test_database imported getenv in
  let flag (var : string) :=
    if truthy (VStr <$> getenv var) then "✅ Set" else "❌ Not Set" in
  database_url r = Some (flag "DATABASE_URL")
  ∧ database_name r = Some (flag "DATABASE_NAME")
  ∧ (database_url r = Some "✅ Set"
     ↔ ∃ s, getenv "DATABASE_URL" = Some s ∧ s ≠ "")
  ∧ (database_name r = Some "✅ Set"
     ↔ ∃ s, getenv "DATABASE_NAME" = Some s ∧ s ≠ "").
Proof.
  assert (∀ o : option string,
    Some (if truthy (VStr <$> o) then "✅ Set" else "❌ Not Set")
      = Some "✅ Set" ↔ ∃ s, o = Some s ∧ s ≠ "") as Hflag.
  { intros [s|]; simpl.
    - case_bool_decide as Hs; simpl.
      + split; [intros [=]|]. intros (s' & [= <-] & Hne). by destruct Hne.
      + split; [eauto|done].
    - split; [intros [=]|]. by intros (s & ? & _). }
  intros r flag. split_and!; [done|done|apply Hflag..].
Qed.

(** X14: the answer of [GET /test] lists at most ten collections, the
    first ten the store names; it lists any only when the import gave a
    handle and the listing did not raise, and then reports
    "Connected & Working"; in every other case the list is empty and the
    report is another text. [connection_status] is "Connected" exactly
    when the import gave a handle, also when the listing raised. *)
Theorem test_database_collections imported getenv :
  let r := test_database imported getenv in
  backend r = "✅ Running"
  ∧ (length (collections r) ≤ 10)%nat
  ∧ ((∃ db names,
        imported = Imported (Some db)
        ∧ list_collection_names db = inr names
        ∧ collections r = take 10 names
        ∧ database r = "✅ Connected & Working")
     ∨ (collections r = [] ∧ database r ≠ "✅ Connected & Working"))
  ∧ (connection_status r = "Connected"
     ↔ ∃ db, imported = Imported (Some db)).
Proof.
  intros r. subst r.
  destruct imported as [|e|[[name [e|names]]|]]; simpl.
  - split_and!; [done|lia|by right|].
    split; [done|by intros [? ?]].
  - split_and!; [done|lia|by right|].
    split; [done|by intros [? ?]].
  - split_and!; [done|lia|by right|]. split; [eauto|done].
  - split_and!; [done|rewrite length_take; lia| |].
    + left. by eexists _, _.
    + split; [eauto|done].
  - split_and!; [done|lia|by right|].
    split; [done|by intros [? ?]].
Qed.
End diagnostic.

(** ** Histories: two instances *)

Lemma start_then_verify_stripped_witness :
  NoDup (_id <$> sample_auth)
  ∧ strip "5550000000" = "5550000000"
  ∧ 320 ≤ 20 + five_minutes
  ∧ stored_field
      (verify_otp
         (start_otp (Some sample_auth) 7 20 21 22
            (StartOtpRequest.mk "Carol" "5550000000")).2
         320 (VerifyOtpRequest.mk "5550000000"
                (pretty (randint 100000 999999 7)))).2
      "5550000000" "verified" = Some (VBool true).
Proof.
  assert (NoDup (_id <$> sample_auth)) as Hnd
    by (apply (bool_decide_unpack _); by vm_compute).
  split_and!; [done|by vm_compute..|].
  apply (start_then_verify_stripped sample_auth 7 20 21 22
           (StartOtpRequest.mk "Carol" "5550000000") 320 Hnd);
    by vm_compute.
Defined.

Lemma run_never_started_witness :
  Forall (λ r, ¬ starts_phone "5550000000" r)
    [ StartVerification 5 0 1 2 (StartOtpRequest.mk "Alice" "5551234567");
      VerifyCode 3 (VerifyOtpRequest.mk "5550000000" "100005") ]
  ∧ (verify_otp
       (run (Some [])
          [ StartVerification 5 0 1 2
              (StartOtpRequest.mk "Alice" "5551234567");
            VerifyCode 3 (VerifyOtpRequest.mk "5550000000" "100005") ])
       4 (VerifyOtpRequest.mk "5550000000" "100005")).1
    = Raise (HTTPException 404 "Start verification first").
Proof.
  assert (Forall (λ r, ¬ starts_phone "5550000000" r)
    [ StartVerification 5 0 1 2 (StartOtpRequest.mk "Alice" "5551234567");
      VerifyCode 3 (VerifyOtpRequest.mk "5550000000" "100005") ]) as Hrs
    by (repeat constructor; by vm_compute).
  split; [exact Hrs|].
  by rewrite (run_never_started _ 4
                (VerifyOtpRequest.mk "5550000000" "100005") Hrs).
Defined.
